(** * ContextMenuService (Wavebox): a shallow embedding and its properties

    The service of [src/app/src/Services/ContextMenuService.js] builds the
    native context menu of a content surface from nine independently
    computed sections, binds itself to every new content surface once, and
    routes the selection of extension-contributed entries back to the
    extension runtime.

    Conventions of the embedding:
    - a JS value that may be [undefined] (or [null]) is an [option];
    - a JS string is a [string], its characters standing for the code
      units of the JS string; it is truthy when it is not empty;
    - the collaborators of the service (Electron, the window manager, the
      spellchecker, the extension runtime) are read through a [World]
      record: one field per call the service makes on them;
    - the closures stored in the [click] property of menu entries are
      data ([Click]): one constructor per closure body, carrying what the
      closure captures; [run_click] runs the body;
    - a handler returns an [Outcome]: the calls with an effect that it made
      on its collaborators, in order, and the exception it ended with, if
      any. *)

From stdpp Require Import base option list strings gmap.

Open Scope string_scope.
Open Scope list_scope.

(** ** Data *)

(** A content surface ([webContents]); [contents.id] identifies it. *)
Record WebContents := mkWebContents { webContentsId : nat }.

Record BrowserWindow := mkBrowserWindow {
  browserWindowId : nat;
  webContents : WebContents;
  ownerId : option string
}.

Record WaveboxWindow := mkWaveboxWindow {
  rootWebContentsHasContextMenu : bool;
  rootWebContentsId : nat
}.

Record WebPreferences := mkWebPreferences { partition : option string }.

Record EditFlags := mkEditFlags {
  canUndo : bool;
  canRedo : bool;
  canCut : bool;
  canCopy : bool;
  canPaste : bool;
  canSelectAll : bool
}.

(** The parameters of a context-menu event: the properties of [params]
    that the service reads.  Every reader of the editability of the click
    target reads [isEditable] (lines 177, 345, 419); [editable] is read
    once, at line 524, and is [None] on an object that has no property of
    that name. *)
Record Params := mkParams {
  params_x : Z;
  params_y : Z;
  linkURL : string;
  srcURL : string;
  pageURL : string;
  frameURL : string;
  mediaType : string;
  isEditable : bool;
  selectionText : string;
  misspelledWord : string;
  editFlags : EditFlags;
  editable : option bool
}.

Record Event := mkEvent { sender : WebContents }.

(** Modelled from the spec: the item types of [CRExtensionRTContextMenu], a
    class declared outside this file.  Section 3 of the spec gives the type
    of a contribution as one of normal, checkbox, radio, separator. *)
Module ITEM_TYPES.
Definition NORMAL : string := "normal".
Definition CHECKBOX : string := "checkbox".
Definition RADIO : string := "radio".
Definition SEPERATOR : string := "separator".
End ITEM_TYPES.

(** Modelled from the spec: the context types of [CRExtensionRTContextMenu].
    Section 3 of the spec gives the applicability contexts of a contribution
    as a set over all, page, editable. *)
Module CONTEXT_TYPES.
Definition ALL : string := "all".
Definition PAGE : string := "page".
Definition EDITABLE : string := "editable".
End CONTEXT_TYPES.

(** What the extension runtime stores for one menu id: the [menuData] of a
    [[menuId, menuData]] pair. *)
Record MenuData := mkMenuData {
  md_parentId : option string;
  md_title : string;
  md_type : string;
  md_contexts : list string;
  md_checked : bool;
  md_enabled : bool
}.

(** Modelled from the spec: an instance of [CRExtensionRTContextMenu], with
    the properties that the service reads from it; section 3 of the spec
    lists them (extension id, menu id, title, type, applicability contexts,
    checked and enabled state). *)
Record CRExtensionRTContextMenu := mkCRExtensionRTContextMenu {
  rt_extensionId : string;
  rt_id : string;
  rt_parentId : option string;
  rt_title : string;
  rt_type : string;
  rt_contexts : list string;
  rt_checked : bool;
  rt_enabled : bool
}.

(** [new CRExtensionRTContextMenu(extensionId, menuId, menuData)] *)
Definition new_CRExtensionRTContextMenu
    (extensionId menuId : string) (menuData : MenuData) : CRExtensionRTContextMenu :=
  {| rt_extensionId := extensionId;
     rt_id := menuId;
     rt_parentId := md_parentId menuData;
     rt_title := md_title menuData;
     rt_type := md_type menuData;
     rt_contexts := md_contexts menuData;
     rt_checked := md_checked menuData;
     rt_enabled := md_enabled menuData |}.

(** One entry of [getRuntimeContextMenuData()]: [{ name, icons, contextMenus }].
    [E] is the type of the elements of [contextMenus]: pairs as the runtime
    returns them, instances once the service has converted them. *)
Record ExtensionData (E : Type) := mkExtensionData {
  name : string;
  icons : gmap string string;
  contextMenus : list E
}.
Arguments mkExtensionData {E} _ _ _.
Arguments name {E} _.
Arguments icons {E} _.
Arguments contextMenus {E} _.

(** A JS object used as a map from string keys: its entries, in the order
    in which [Object.keys] lists its keys. *)
Definition JSObject (V : Type) := list (string * V).

(** [nativeImage.createFromPath(path)] *)
Inductive NativeImage := createFromPath (path : option string).

(** The selection payload handed to the extension runtime. *)
Record ClickParams := mkClickParams {
  cp_menuItemId : string;
  cp_parentMenuItemId : option string;
  cp_mediaType : option string;
  cp_linkUrl : string;
  cp_srcUrl : string;
  cp_pageUrl : string;
  cp_frameUrl : string;
  cp_selectionText : string;
  cp_editable : option bool;
  cp_wasChecked : option bool;
  cp_checked : option bool
}.

(** The bodies of the [click] closures of the file. *)
Inductive Click :=
  | shell_openExternal (url : string) (activate : option bool)
  | shell_openExternal_googleSearch (selectionText : string)
  | this_openLinkInWaveboxWindow (contents : WebContents) (url : string)
  | clipboard_writeText (text : string)
  | spellchecker_addUserWord (word : string)
  | contents_downloadURL (contents : WebContents) (url : string)
  | contents_goBack (contents : WebContents)
  | contents_goForward (contents : WebContents)
  | contents_reload (contents : WebContents)
  | this_openWaveboxSettings (contents : WebContents)
  | changePrimarySpellcheckLanguage (lang : string)
  | contents_inspectElement (contents : WebContents) (x y : Z)
  | contents_replaceMisspelling (contents : WebContents) (suggestion : string)
  | this_extensionOptionSelected
      (contents : WebContents) (extensionId : string)
      (menuItem : CRExtensionRTContextMenu) (params : Params).

#[local] Set Warnings "-register-all".

(** An entry of a menu template.  An element of a [submenu] may be
    [undefined]: [renderExtensionMenuItem] returns that for a type it does
    not know. *)
Inductive MenuItem := mkMenuItem {
  label : option string;
  type : option string;
  role : option string;
  enabled : option bool;
  checked : option bool;
  icon : option NativeImage;
  click : option Click;
  submenu : option (list (option MenuItem))
}.

(** [{ type: 'separator' }] *)
Definition separator : MenuItem :=
  {| label := None; type := Some "separator"; role := None; enabled := None;
     checked := None; icon := None; click := None; submenu := None |}.

(** What a section builder returns: an array of entries, or [undefined]. *)
Definition SectionTemplate := option (list MenuItem).

(** ** Template assembly *)

(** [a.slice(0, -1)]: the end index is [max (length - 1) 0]. *)
Definition slice_0_minus1 {A} (a : list A) : list A := take (length a - 1) a.

(** The callback of the [reduce] of [convertSectionsToTemplate]. *)
Definition appendSection (acc : list MenuItem) (section : SectionTemplate) : list MenuItem :=
  match section with
  | Some entries =>
      if negb (Nat.eqb (length entries) 0) then acc ++ entries ++ [separator]
      else acc
  | None => acc
  end.

(** [convertSectionsToTemplate] *)
Definition convertSectionsToTemplate (sections : list SectionTemplate) : list MenuItem :=
  slice_0_minus1 (fold_left appendSection sections []).

(** ** Collaborators *)

Record LanguageSuggestions := mkLanguageSuggestions {
  language : string;
  suggestions : list string
}.

(** The result of [spellSuggestionsSync]. *)
Record SpellSuggestions := mkSpellSuggestions {
  primary : option LanguageSuggestions;
  secondary : option LanguageSuggestions
}.

Inductive MailboxesWindow := theMailboxesWindow.

Record World := mkWorld {
  (* methods of a webContents *)
  isDestroyed : WebContents → bool;
  canGoBack : WebContents → bool;
  canGoForward : WebContents → bool;
  getWebPreferences : WebContents → WebPreferences;
  (* ElectronWebContents.rootWebContents, BrowserWindow.fromWebContents *)
  rootWebContents : WebContents → option WebContents;
  fromWebContents : WebContents → option BrowserWindow;
  (* WaveboxWindow.fromBrowserWindow, .fromTabId, .getOfType(MailboxesWindow) *)
  fromBrowserWindow : BrowserWindow → option WaveboxWindow;
  fromTabId : nat → option WaveboxWindow;
  getOfType_MailboxesWindow : option MailboxesWindow;
  (* process.platform *)
  platform : string;
  (* the spellchecker service *)
  spellSuggestionsSync : string → SpellSuggestions;
  getHumanizedLanguageName : string → string;
  getInstalledDictionaries : list string;
  primaryLanguage : string;
  (* CRExtensionManager.runtimeHandler.getRuntimeContextMenuData() *)
  getRuntimeContextMenuData : JSObject (ExtensionData (string * MenuData));
  (* the global function of that name; [None] when it throws a URIError
     (the text holds a lone surrogate) *)
  encodeURIComponent : string → option string
}.

(** [Menu.buildFromTemplate(template)] *)
Inductive Menu := buildFromTemplate (template : list MenuItem).

(** The callbacks the service hands to [setTimeout]. *)
Inductive TimerCallback := MenuTool_fullDestroyMenu (menu : Menu).

(** The calls with an effect that the handlers make. *)
Inductive Effect :=
  | ShellOpenExternal (url : string) (activate : option bool)
  | ClipboardWriteText (text : string)
  | AddUserWord (word : string)
  | DownloadURL (contents : WebContents) (url : string)
  | GoBack (contents : WebContents)
  | GoForward (contents : WebContents)
  | Reload (contents : WebContents)
  | InspectElement (contents : WebContents) (x y : Z)
  | ReplaceMisspelling (contents : WebContents) (suggestion : string)
  | NewContentWindow (owner : option string)
  | ContentWindowCreate
      (owner : option string) (opener : BrowserWindow) (url : string)
      (partition : option string)
  | MailboxesWindowShow (window : MailboxesWindow)
  | MailboxesWindowFocus (window : MailboxesWindow)
  | LaunchPreferences (window : MailboxesWindow)
  | ChangePrimarySpellcheckLanguage (window : MailboxesWindow) (lang : string)
  | ContextMenuItemSelected
      (extensionId : string) (contents : WebContents) (clickParams : ClickParams)
  | MenuPopup (menu : Menu) (browserWindow : BrowserWindow)
  | SetTimeout (callback : TimerCallback) (ms : nat)
  | FullDestroyMenu (menu : Menu).

Inductive Exception :=
  | TypeError (message : string)
  | URIError (message : string).

Record Outcome := mkOutcome {
  effects : list Effect;
  thrown : option Exception
}.

(** A handler that returns after the calls [es]. *)
Definition returns (es : list Effect) : Outcome :=
  {| effects := es; thrown := None |}.

(** A handler that ends with exception [e] before any call with an effect. *)
Definition throws (e : Exception) : Outcome :=
  {| effects := []; thrown := Some e |}.

(** JS truthiness of a string. *)
Definition truthy (s : string) : bool := negb (String.eqb s "").

(** [a || b] on strings *)
Definition js_or (a b : string) : string := if truthy a then a else b.

(** ** Section builders *)

Section Rendering.

Variable w : World.

(** [renderURLSection] *)
Definition renderURLSection (contents : WebContents) (params : Params) : SectionTemplate :=
  Some
    (if truthy (linkURL params) then
       [ {| label := Some "Open Link in Browser"; type := None; role := None;
            enabled := None; checked := None; icon := None;
            click := Some (shell_openExternal (linkURL params) None);
            submenu := None |};
         {| label := Some "Open Link with Wavebox"; type := None; role := None;
            enabled := None; checked := None; icon := None;
            click := Some (this_openLinkInWaveboxWindow contents (linkURL params));
            submenu := None |} ]
       ++ (if String.eqb (platform w) "darwin" then
             [ {| label := Some "Open Link in Background"; type := None;
                  role := None; enabled := None; checked := None; icon := None;
                  click := Some (shell_openExternal (linkURL params) (Some false));
                  submenu := None |} ]
           else [])
       ++ [ {| label := Some "Copy link Address"; type := None; role := None;
               enabled := None; checked := None; icon := None;
               click := Some (clipboard_writeText (linkURL params));
               submenu := None |} ]
     else []).

(** [renderLookupAndSearchSection] *)
Definition renderLookupAndSearchSection
    (contents : WebContents) (params : Params) : SectionTemplate :=
  Some
    (if truthy (selectionText params) then
       (if isEditable params && truthy (misspelledWord params) then
          [ {| label := Some ("Add “" +:+ misspelledWord params +:+ "” to Dictionary");
               type := None; role := None; enabled := None; checked := None;
               icon := None;
               click := Some (spellchecker_addUserWord (misspelledWord params));
               submenu := None |} ]
        else [])
       ++ (let displayText :=
             if Nat.leb 50 (String.length (selectionText params))
             then String.substring 0 47 (selectionText params) +:+ "…"
             else selectionText params in
           [ {| label := Some ("Search Google for “" +:+ displayText +:+ "”");
                type := None; role := None; enabled := None; checked := None;
                icon := None;
                click := Some (shell_openExternal_googleSearch (selectionText params));
                submenu := None |} ])
     else []).

(** [renderRewindSection] *)
Definition renderRewindSection (contents : WebContents) (params : Params) : SectionTemplate :=
  Some
    (if canUndo (editFlags params) || canRedo (editFlags params) then
       [ {| label := Some "Undo"; type := None; role := Some "undo";
            enabled := Some (canUndo (editFlags params)); checked := None;
            icon := None; click := None; submenu := None |};
         {| label := Some "Redo"; type := None; role := Some "redo";
            enabled := Some (canRedo (editFlags params)); checked := None;
            icon := None; click := None; submenu := None |} ]
     else []).

(** [{ label: l, role: r }] *)
Definition roleItem (l r : string) : MenuItem :=
  {| label := Some l; type := None; role := Some r; enabled := None;
     checked := None; icon := None; click := None; submenu := None |}.

(** [renderEditingSection] *)
Definition renderEditingSection (contents : WebContents) (params : Params) : SectionTemplate :=
  if String.eqb (mediaType params) "image" then
    Some
      [ {| label := Some "Open Image in Browser"; type := None; role := None;
           enabled := None; checked := None; icon := None;
           click := Some (shell_openExternal (srcURL params) None);
           submenu := None |};
        {| label := Some "Save Image As…"; type := None; role := None;
           enabled := None; checked := None; icon := None;
           click := Some (contents_downloadURL contents (srcURL params));
           submenu := None |};
        {| label := Some "Copy Image Address"; type := None; role := None;
           enabled := None; checked := None; icon := None;
           click := Some (clipboard_writeText (srcURL params));
           submenu := None |} ]
  else
    Some
      ((if canCut (editFlags params) then [roleItem "Cut" "cut"] else [])
       ++ (if canCopy (editFlags params) then [roleItem "Copy" "copy"] else [])
       ++ (if canPaste (editFlags params) then [roleItem "Paste" "paste"] else [])
       ++ (if canPaste (editFlags params)
           then [roleItem "Paste and match style" "pasteandmatchstyle"] else [])
       ++ (if canSelectAll (editFlags params)
           then [roleItem "Select all" "selectall"] else [])).

(** [renderPageNavigationSection] *)
Definition renderPageNavigationSection
    (contents : WebContents) (params : Params) : SectionTemplate :=
  Some
    [ {| label := Some "Go Back"; type := None; role := None;
         enabled := Some (canGoBack w contents); checked := None; icon := None;
         click := Some (contents_goBack contents); submenu := None |};
      {| label := Some "Go Forward"; type := None; role := None;
         enabled := Some (canGoForward w contents); checked := None; icon := None;
         click := Some (contents_goForward contents); submenu := None |};
      {| label := Some "Reload"; type := None; role := None; enabled := None;
         checked := None; icon := None;
         click := Some (contents_reload contents); submenu := None |} ].

(** [renderPageExternalSection] *)
Definition renderPageExternalSection
    (contents : WebContents) (params : Params) : SectionTemplate :=
  Some
    [ {| label := Some "Copy current URL"; type := None; role := None;
         enabled := None; checked := None; icon := None;
         click := Some (clipboard_writeText (pageURL params)); submenu := None |};
      {| label := Some "Open page in Browser"; type := None; role := None;
         enabled := None; checked := None; icon := None;
         click := Some (shell_openExternal (pageURL params) None);
         submenu := None |};
      {| label := Some "Open page with Wavebox"; type := None; role := None;
         enabled := None; checked := None; icon := None;
         click := Some (this_openLinkInWaveboxWindow contents (pageURL params));
         submenu := None |} ].

(** [renderWaveboxSection] *)
Definition renderWaveboxSection (contents : WebContents) (params : Params) : SectionTemplate :=
  Some
    ([ {| label := Some "Wavebox Settings"; type := None; role := None;
          enabled := None; checked := None; icon := None;
          click := Some (this_openWaveboxSettings contents); submenu := None |} ]
     ++ (let installedDictionaries := getInstalledDictionaries w in
         if Nat.ltb 1 (length installedDictionaries) then
           let currentLanguage := primaryLanguage w in
           [ {| label := Some "Change Dictionary"; type := None; role := None;
                enabled := None; checked := None; icon := None; click := None;
                submenu :=
                  Some
                    (map
                       (λ lang,
                          Some
                            {| label := Some (getHumanizedLanguageName w lang);
                               type := Some "radio"; role := None; enabled := None;
                               checked := Some (String.eqb lang currentLanguage);
                               icon := None;
                               click := Some (changePrimarySpellcheckLanguage lang);
                               submenu := None |})
                       installedDictionaries) |} ]
         else [])
     ++ [ {| label := Some "Inspect"; type := None; role := None; enabled := None;
             checked := None; icon := None;
             click :=
               Some (contents_inspectElement contents (params_x params) (params_y params));
             submenu := None |} ]).

(** [renderSpellingSuggestionMenuItems] *)
Definition renderSpellingSuggestionMenuItems
    (contents : WebContents) (suggList : list string) : list MenuItem :=
  if negb (Nat.eqb (length suggList) 0) then
    map
      (λ suggestion,
         {| label := Some suggestion; type := None; role := None; enabled := None;
            checked := None; icon := None;
            click := Some (contents_replaceMisspelling contents suggestion);
            submenu := None |})
      suggList
  else
    [ {| label := Some "No Spelling Suggestions"; type := None; role := None;
         enabled := Some false; checked := None; icon := None; click := None;
         submenu := None |} ].

(** [renderSpellingSection] *)
Definition renderSpellingSection (contents : WebContents) (params : Params) : SectionTemplate :=
  Some
    (if isEditable params && truthy (misspelledWord params) then
       let result := spellSuggestionsSync w (misspelledWord params) in
       match primary result, secondary result with
       | Some p, Some s =>
           [ {| label := Some (getHumanizedLanguageName w (language p));
                type := None; role := None; enabled := None; checked := None;
                icon := None; click := None;
                submenu :=
                  Some (Some <$> renderSpellingSuggestionMenuItems contents
                                   (suggestions p)) |};
             {| label := Some (getHumanizedLanguageName w (language s));
                type := None; role := None; enabled := None; checked := None;
                icon := None; click := None;
                submenu :=
                  Some (Some <$> renderSpellingSuggestionMenuItems contents
                                   (suggestions s)) |} ]
       | p, s =>
           let suggList :=
             match p, s with
             | Some p, _ => suggestions p
             | None, Some s => suggestions s
             | None, None => []
             end in
           renderSpellingSuggestionMenuItems contents suggList
       end
     else []).

(** *** Extensions *)

(** [renderExtensionMenuItem]; [None] is [undefined]. *)
Definition renderExtensionMenuItem
    (contents : WebContents) (params : Params) (extensionId : string)
    (menuItem : CRExtensionRTContextMenu) : option MenuItem :=
  if String.eqb (rt_type menuItem) ITEM_TYPES.NORMAL then
    Some
      {| label := Some (rt_title menuItem); type := None; role := None;
         enabled := Some (rt_enabled menuItem); checked := None; icon := None;
         click := Some (this_extensionOptionSelected contents extensionId menuItem params);
         submenu := None |}
  else if String.eqb (rt_type menuItem) ITEM_TYPES.CHECKBOX then
    Some
      {| label := Some (rt_title menuItem); type := Some "checkbox"; role := None;
         enabled := None; checked := Some (rt_checked menuItem); icon := None;
         click := Some (this_extensionOptionSelected contents extensionId menuItem params);
         submenu := None |}
  else if String.eqb (rt_type menuItem) ITEM_TYPES.RADIO then
    Some
      {| label := Some (rt_title menuItem); type := Some "radio"; role := None;
         enabled := None; checked := Some (rt_checked menuItem); icon := None;
         click := Some (this_extensionOptionSelected contents extensionId menuItem params);
         submenu := None |}
  else if String.eqb (rt_type menuItem) ITEM_TYPES.SEPERATOR then
    Some separator
  else None.

(** The value of a property after [Object.assign]: the source's when the
    source has it, the target's otherwise. *)
Definition assigned {A} (source target : option A) : option A :=
  match source with
  | Some v => Some v
  | None => target
  end.

(** [Object.assign(target, source)] on entries; an [undefined] source is
    skipped. *)
Definition Object_assign (target : MenuItem) (source : option MenuItem) : MenuItem :=
  match source with
  | Some src =>
      {| label := assigned (label src) (label target);
         type := assigned (type src) (type target);
         role := assigned (role src) (role target);
         enabled := assigned (enabled src) (enabled target);
         checked := assigned (checked src) (checked target);
         icon := assigned (icon src) (icon target);
         click := assigned (click src) (click target);
         submenu := assigned (submenu src) (submenu target) |}
  | None => target
  end.

(** The first loop of [renderExtensionSection]: every [[menuId, menuData]]
    pair becomes an instance of [CRExtensionRTContextMenu].  The loop
    updates the object it got from the runtime in place; the runtime hands
    out a new object at each request. *)
Definition convertContextMenus
    (extensionContextMenus : JSObject (ExtensionData (string * MenuData)))
    : JSObject (ExtensionData CRExtensionRTContextMenu) :=
  map
    (λ '(extensionId, data),
       (extensionId,
        {| name := name data;
           icons := icons data;
           contextMenus :=
             map (λ '(menuId, menuData),
                    new_CRExtensionRTContextMenu extensionId menuId menuData)
                 (contextMenus data) |}))
    extensionContextMenus.

(** The callback of the [filter] at lines 415-422; [None] is the
    [undefined] that falling off the end of the callback returns. *)
Definition contextMenuFilter (params : Params) (menu : CRExtensionRTContextMenu)
    : option bool :=
  let contexts : gset string := list_to_set (rt_contexts menu) in
  if bool_decide (js_or CONTEXT_TYPES.ALL CONTEXT_TYPES.PAGE ∈ contexts) then
    Some true
  else if isEditable params && bool_decide (CONTEXT_TYPES.EDITABLE ∈ contexts) then
    Some true
  else None.

(** Truthiness of what a [filter] callback returned. *)
Definition filter_keeps (r : option bool) : bool :=
  match r with
  | Some b => b
  | None => false
  end.

Definition validContextMenusOf
    (params : Params) (contextMenus : list CRExtensionRTContextMenu)
    : list CRExtensionRTContextMenu :=
  List.filter (λ menu, filter_keeps (contextMenuFilter params menu)) contextMenus.

(** The body of the second loop of [renderExtensionSection]: what one
    extension pushes onto [template]. *)
Definition pushExtension
    (contents : WebContents) (params : Params) (template : list MenuItem)
    (entry : string * ExtensionData CRExtensionRTContextMenu) : list MenuItem :=
  let '(extensionId, data) := entry in
  let validContextMenus := validContextMenusOf params (contextMenus data) in
  match validContextMenus with
  | [menuItem] =>
      template ++
      [ Object_assign
          {| label := None; type := None; role := None; enabled := None;
             checked := None; icon := Some (createFromPath (icons data !! "16"));
             click := None; submenu := None |}
          (renderExtensionMenuItem contents params extensionId menuItem) ]
  | _ :: _ :: _ =>
      template ++
      [ {| label := Some (name data); type := None; role := None; enabled := None;
           checked := None; icon := Some (createFromPath (icons data !! "16"));
           click := None;
           submenu :=
             Some (map (renderExtensionMenuItem contents params extensionId)
                       validContextMenus) |} ]
  | [] => template
  end.

(** [renderExtensionSection] *)
Definition renderExtensionSection (contents : WebContents) (params : Params) : SectionTemplate :=
  match fromTabId w (webContentsId contents) with
  | None => Some []
  | Some waveboxWindow =>
      let extensionContextMenus := convertContextMenus (getRuntimeContextMenuData w) in
      Some (fold_left (pushExtension contents params) extensionContextMenus [])
  end.

End Rendering.

(** ** Handlers *)

Section Handlers.

Variable w : World.

(** [openLinkInWaveboxWindow]; reading [ownerId] of a missing opener window
    is a [TypeError].  The content window is identified by the owner it is
    constructed with. *)
Definition openLinkInWaveboxWindow (contents : WebContents) (url : string) : Outcome :=
  let rootContents := rootWebContents w contents in
  let openerWindow :=
    match rootContents with
    | Some root => fromWebContents w root
    | None => None
    end in
  let openerWebPreferences := getWebPreferences w contents in
  match openerWindow with
  | None => throws (TypeError "Cannot read property 'ownerId' of undefined")
  | Some opener =>
      returns [ NewContentWindow (ownerId opener);
                ContentWindowCreate (ownerId opener) opener url
                  (partition openerWebPreferences) ]
  end.

(** [openWaveboxSettings] *)
Definition openWaveboxSettings (contents : WebContents) : Outcome :=
  match getOfType_MailboxesWindow w with
  | Some mailboxesWindow =>
      returns [ MailboxesWindowShow mailboxesWindow;
                MailboxesWindowFocus mailboxesWindow;
                LaunchPreferences mailboxesWindow ]
  | None => returns []
  end.

(** The payload built at lines 515-529. *)
Definition clickParamsOf (menuItem : CRExtensionRTContextMenu) (params : Params)
    : ClickParams :=
  let checkable :=
    String.eqb (rt_type menuItem) ITEM_TYPES.CHECKBOX
    || String.eqb (rt_type menuItem) ITEM_TYPES.RADIO in
  {| cp_menuItemId := rt_id menuItem;
     cp_parentMenuItemId := rt_parentId menuItem;
     cp_mediaType :=
       if String.eqb (mediaType params) "none" then None else Some (mediaType params);
     cp_linkUrl := linkURL params;
     cp_srcUrl := srcURL params;
     cp_pageUrl := pageURL params;
     cp_frameUrl := frameURL params;
     cp_selectionText := selectionText params;
     cp_editable := editable params;
     cp_wasChecked := if checkable then Some (rt_checked menuItem) else None;
     cp_checked := if checkable then Some (negb (rt_checked menuItem)) else None |}.

(** [extensionOptionSelected] *)
Definition extensionOptionSelected
    (contents : WebContents) (extensionId : string)
    (menuItem : CRExtensionRTContextMenu) (params : Params) : Outcome :=
  if isDestroyed w contents then returns []
  else
    let clickParams := clickParamsOf menuItem params in
    returns [ContextMenuItemSelected extensionId contents clickParams].

(** The nine section builders, as [launchMenu] lists them. *)
Definition sectionsOf (contents : WebContents) (params : Params) : list SectionTemplate :=
  [ renderSpellingSection w contents params;
    renderURLSection w contents params;
    renderLookupAndSearchSection contents params;
    renderRewindSection contents params;
    renderEditingSection contents params;
    renderPageNavigationSection w contents params;
    renderPageExternalSection contents params;
    renderExtensionSection w contents params;
    renderWaveboxSection w contents params ].

(** [launchMenu] *)
Definition launchMenu (evt : Event) (params : Params) : Outcome :=
  let contents := sender evt in
  match rootWebContents w contents with
  | None => returns []
  | Some rootContents =>
      match fromWebContents w rootContents with
      | None => returns []
      | Some browserWindow =>
          let sections := sectionsOf contents params in
          let menu := buildFromTemplate (convertSectionsToTemplate sections) in
          returns [ MenuPopup menu browserWindow;
                    SetTimeout (MenuTool_fullDestroyMenu menu) 100 ]
      end
  end.

(** Running the body of a [click] closure. *)
Definition run_click (c : Click) : Outcome :=
  match c with
  | shell_openExternal url activate => returns [ShellOpenExternal url activate]
  | shell_openExternal_googleSearch text =>
      match encodeURIComponent w text with
      | Some encoded =>
          returns [ShellOpenExternal ("https://google.com/search?q=" +:+ encoded) None]
      | None => throws (URIError "URI malformed")
      end
  | this_openLinkInWaveboxWindow contents url => openLinkInWaveboxWindow contents url
  | clipboard_writeText text => returns [ClipboardWriteText text]
  | spellchecker_addUserWord word => returns [AddUserWord word]
  | contents_downloadURL contents url => returns [DownloadURL contents url]
  | contents_goBack contents => returns [GoBack contents]
  | contents_goForward contents => returns [GoForward contents]
  | contents_reload contents => returns [Reload contents]
  | this_openWaveboxSettings contents => openWaveboxSettings contents
  | changePrimarySpellcheckLanguage lang =>
      match getOfType_MailboxesWindow w with
      | Some mailboxesWindow =>
          returns [ChangePrimarySpellcheckLanguage mailboxesWindow lang]
      | None => returns []
      end
  | contents_inspectElement contents x y => returns [InspectElement contents x y]
  | contents_replaceMisspelling contents suggestion =>
      returns [ReplaceMisspelling contents suggestion]
  | this_extensionOptionSelected contents extensionId menuItem params =>
      extensionOptionSelected contents extensionId menuItem params
  end.

(** Running a callback handed to [setTimeout]. *)
Definition run_timer (t : TimerCallback) : Outcome :=
  match t with
  | MenuTool_fullDestroyMenu menu => returns [FullDestroyMenu menu]
  end.

End Handlers.

(** ** Binding the menu to content surfaces *)

#[global] Instance WebContents_eq_dec : EqDecision WebContents.
Proof. solve_decision. Defined.

(** What the service registers with [contents.on]. *)
Inductive Listener :=
  | on_context_menu_launchMenu
  | on_destroyed_delete (webContentsId : nat).

(** The service and what surrounds it: the set [this[privConnected]], the
    listeners registered on content surfaces (oldest first), the callbacks
    handed to [setImmediate] that have not run yet (oldest first, each one
    given by the [contents] it captures), and the surfaces that have been
    destroyed. *)
Record System := mkSystem {
  privConnected : gset nat;
  listeners : list (WebContents * Listener);
  immediates : list WebContents;
  destroyedContents : gset nat
}.

(** The state the constructor leaves. *)
Definition initial : System :=
  {| privConnected := ∅; listeners := []; immediates := [];
     destroyedContents := ∅ |}.

(** The callback that [_handleWebContentsCreated] hands to [setImmediate]. *)
Definition bindContextMenu (w : World) (s : System) (contents : WebContents) : System :=
  if isDestroyed w contents then s
  else
    let webContentsId := webContentsId contents in
    if bool_decide (webContentsId ∈ privConnected s) then s
    else
      match rootWebContents w contents with
      | None => s
      | Some rootContents =>
          match fromWebContents w rootContents with
          | None => s
          | Some browserWindow =>
              let unsuitable :=
                match fromBrowserWindow w browserWindow with
                | Some waveboxWindow =>
                    negb (rootWebContentsHasContextMenu waveboxWindow)
                    && Nat.eqb (rootWebContentsId waveboxWindow) webContentsId
                | None => false
                end in
              if unsuitable then s
              else
                {| privConnected := {[webContentsId]} ∪ privConnected s;
                   listeners :=
                     listeners s
                     ++ [ (contents, on_context_menu_launchMenu);
                          (contents, on_destroyed_delete webContentsId) ];
                   immediates := immediates s;
                   destroyedContents := destroyedContents s |}
          end
      end.

(** [_handleWebContentsCreated]: the work is deferred by [setImmediate]. *)
Definition _handleWebContentsCreated (s : System) (contents : WebContents) : System :=
  {| privConnected := privConnected s;
     listeners := listeners s;
     immediates := immediates s ++ [contents];
     destroyedContents := destroyedContents s |}.

(** [_handleBrowserWindowCreated] *)
Definition _handleBrowserWindowCreated (s : System) (window : BrowserWindow) : System :=
  _handleWebContentsCreated s (webContents window).

(** Running one listener of the ['destroyed'] event. *)
Definition run_destroyed_listener (s : System) (l : Listener) : System :=
  match l with
  | on_destroyed_delete webContentsId =>
      {| privConnected := privConnected s ∖ {[webContentsId]};
         listeners := listeners s;
         immediates := immediates s;
         destroyedContents := destroyedContents s |}
  | on_context_menu_launchMenu => s
  end.

(** The listeners registered on [contents]. *)
Definition listenersOn (s : System) (contents : WebContents) : list Listener :=
  (List.filter (λ r, bool_decide (r.1 = contents)) (listeners s)).*2.

(** The number of ['context-menu'] listeners on [contents]. *)
Definition contextMenuListeners (s : System) (contents : WebContents) : nat :=
  length (List.filter
            (λ l, match l with on_context_menu_launchMenu => true | _ => false end)
            (listenersOn s contents)).

(** The world as a deferred callback sees it: a surface reports itself
    destroyed exactly when it has been. *)
Definition worldOf (s : System) (w : World) : World :=
  {| isDestroyed := λ c, bool_decide (webContentsId c ∈ destroyedContents s);
     canGoBack := canGoBack w;
     canGoForward := canGoForward w;
     getWebPreferences := getWebPreferences w;
     rootWebContents := rootWebContents w;
     fromWebContents := fromWebContents w;
     fromBrowserWindow := fromBrowserWindow w;
     fromTabId := fromTabId w;
     getOfType_MailboxesWindow := getOfType_MailboxesWindow w;
     platform := platform w;
     spellSuggestionsSync := spellSuggestionsSync w;
     getHumanizedLanguageName := getHumanizedLanguageName w;
     getInstalledDictionaries := getInstalledDictionaries w;
     primaryLanguage := primaryLanguage w;
     getRuntimeContextMenuData := getRuntimeContextMenuData w;
     encodeURIComponent := encodeURIComponent w |}.

(** What happens to the service between two menus. *)
Inductive AppEvent :=
  | web_contents_created (contents : WebContents)
  | browser_window_created (window : BrowserWindow)
  | run_immediate (w : World)
  | contents_destroyed (contents : WebContents).

Definition step (s : System) (e : AppEvent) : System :=
  match e with
  | web_contents_created contents => _handleWebContentsCreated s contents
  | browser_window_created window => _handleBrowserWindowCreated s window
  | run_immediate w =>
      match immediates s with
      | [] => s
      | contents :: rest =>
          bindContextMenu (worldOf s w)
            {| privConnected := privConnected s; listeners := listeners s;
               immediates := rest; destroyedContents := destroyedContents s |}
            contents
      end
  | contents_destroyed contents =>
      fold_left run_destroyed_listener (listenersOn s contents)
        {| privConnected := privConnected s; listeners := listeners s;
           immediates := immediates s;
           destroyedContents := {[webContentsId contents]} ∪ destroyedContents s |}
  end.

Definition run (events : list AppEvent) : System := fold_left step events initial.

(** A ['context-menu'] event on [contents]: every listener registered for
    it runs [launchMenu]. *)
Definition emit_context_menu
    (s : System) (w : World) (contents : WebContents) (params : Params)
    : list Outcome :=
  omap (λ l, match l with
             | on_context_menu_launchMenu =>
                 Some (launchMenu w {| sender := contents |} params)
             | _ => None
             end)
       (listenersOn s contents).

(** * Vocabulary of the properties *)

(** ** Template assembly *)

(** The entries of the sections that have some, in order. *)
Definition nonEmptySections (sections : list SectionTemplate) : list (list MenuItem) :=
  omap (λ section : SectionTemplate,
          match section with
          | Some (entry :: entries) => Some (entry :: entries)
          | _ => None
          end)
       sections.

(** Sections joined with one separator between each adjacent pair. *)
Fixpoint joinSections (l : list (list MenuItem)) : list MenuItem :=
  match l with
  | [] => []
  | [section] => section
  | section :: rest => section ++ separator :: joinSections rest
  end.

Definition isSeparator (entry : MenuItem) : bool :=
  match type entry with
  | Some t => String.eqb t "separator"
  | None => false
  end.

Definition countSeparators (template : list MenuItem) : nat :=
  length (List.filter isSeparator template).

(** An entry of type separator that a section itself holds: the entry that
    [renderExtensionSection] emits for an extension whose only qualifying
    contribution has type separator. *)
Definition ownSeparator : MenuItem :=
  {| label := None; type := Some "separator"; role := None; enabled := None;
     checked := None; icon := Some (createFromPath (Some "divider16.png"));
     click := None; submenu := None |}.


(** ** Extension section *)

(** [{ icon: nativeImage.createFromPath(icons['16']) }] *)
Definition iconOnly (data : ExtensionData CRExtensionRTContextMenu) : MenuItem :=
  {| label := None; type := None; role := None; enabled := None; checked := None;
     icon := Some (createFromPath (icons data !! "16")); click := None;
     submenu := None |}.

(** What one extension contributes to the section. *)
Definition extensionEntries
    (contents : WebContents) (params : Params)
    (entry : string * ExtensionData CRExtensionRTContextMenu) : list MenuItem :=
  pushExtension contents params [] entry.

(** A contribution is page-level when its contexts hold [all] or [page]. *)
Definition pageLevel (menu : CRExtensionRTContextMenu) : Prop :=
  CONTEXT_TYPES.ALL ∈ rt_contexts menu ∨ CONTEXT_TYPES.PAGE ∈ rt_contexts menu.

(** ** A concrete world

    A main window whose root surface (1) has no context menu of its own and
    hosts a tab (2); a surface without root (3) and a surface that is its
    own root but sits in no window (4).  Two extensions have registered
    contributions. *)

Definition rootSurface : WebContents := mkWebContents 1.
Definition tabSurface : WebContents := mkWebContents 2.
Definition rootlessSurface : WebContents := mkWebContents 3.
Definition windowlessSurface : WebContents := mkWebContents 4.

Definition mainWindow : BrowserWindow :=
  {| browserWindowId := 10; webContents := rootSurface; ownerId := Some "main" |}.

Definition mainWaveboxWindow : WaveboxWindow :=
  {| rootWebContentsHasContextMenu := false; rootWebContentsId := 1 |}.

Definition pageOnlyData : MenuData :=
  {| md_parentId := None; md_title := "Translate page"; md_type := "normal";
     md_contexts := ["page"]; md_checked := false; md_enabled := true |}.

Definition allData : MenuData :=
  {| md_parentId := None; md_title := "Save to notes"; md_type := "normal";
     md_contexts := ["all"]; md_checked := false; md_enabled := true |}.

Definition checkboxData : MenuData :=
  {| md_parentId := Some "root"; md_title := "Dark mode"; md_type := "checkbox";
     md_contexts := ["all"]; md_checked := true; md_enabled := true |}.

Definition editableData : MenuData :=
  {| md_parentId := Some "root"; md_title := "Fill password"; md_type := "normal";
     md_contexts := ["editable"]; md_checked := false; md_enabled := true |}.

Definition exampleRuntimeData : JSObject (ExtensionData (string * MenuData)) :=
  [ ("notes",
     {| name := "Notes"; icons := {[ "16" := "notes16.png" ]};
        contextMenus := [("save", allData); ("translate", pageOnlyData)] |});
    ("vault",
     {| name := "Vault"; icons := ∅;
        contextMenus := [("dark", checkboxData); ("fill", editableData);
                         ("save", allData)] |}) ].

(** An extension whose only contribution is a separator. *)
Definition dividerRuntimeData : JSObject (ExtensionData (string * MenuData)) :=
  [ ("divider",
     {| name := "Divider"; icons := {[ "16" := "divider16.png" ]};
        contextMenus :=
          [("line",
            {| md_parentId := None; md_title := ""; md_type := "separator";
               md_contexts := ["all"]; md_checked := false;
               md_enabled := true |})] |}) ].

(** The world in which the extension runtime holds [runtimeData]. *)
Definition worldWith (runtimeData : JSObject (ExtensionData (string * MenuData)))
    : World :=
  {| isDestroyed := λ _, false;
     canGoBack := λ _, true;
     canGoForward := λ _, false;
     getWebPreferences := λ _, {| partition := Some "persist:main" |};
     rootWebContents := λ c,
       match webContentsId c with
       | 1 | 2 => Some rootSurface
       | 4 => Some windowlessSurface
       | _ => None
       end;
     fromWebContents := λ c,
       match webContentsId c with
       | 1 => Some mainWindow
       | _ => None
       end;
     fromBrowserWindow := λ _, Some mainWaveboxWindow;
     fromTabId := λ id,
       match id with
       | 2 => Some mainWaveboxWindow
       | _ => None
       end;
     getOfType_MailboxesWindow := Some theMailboxesWindow;
     platform := "darwin";
     spellSuggestionsSync := λ _,
       {| primary := Some {| language := "en_US"; suggestions := ["the"; "ten"] |};
          secondary := None |};
     getHumanizedLanguageName := λ lang, lang;
     getInstalledDictionaries := ["en_US"; "de_DE"];
     primaryLanguage := "en_US";
     getRuntimeContextMenuData := runtimeData;
     encodeURIComponent := λ s, Some s |}.

Definition exampleWorld : World := worldWith exampleRuntimeData.

Definition dividerWorld : World := worldWith dividerRuntimeData.

(** The same world once the tab has been destroyed. *)
Definition worldAfterDestruction : World :=
  worldOf {| privConnected := ∅; listeners := []; immediates := [];
             destroyedContents := {[2]} |} exampleWorld.

(** A right click on a misspelled word in an editable field. *)
Definition editableParams : Params :=
  {| params_x := 10; params_y := 20; linkURL := ""; srcURL := "";
     pageURL := "https://example.org/"; frameURL := ""; mediaType := "none";
     isEditable := true; selectionText := "teh"; misspelledWord := "teh";
     editFlags := {| canUndo := true; canRedo := false; canCut := true;
                     canCopy := true; canPaste := true; canSelectAll := true |};
     editable := None |}.

(** A right click on plain page text. *)
Definition pageParams : Params :=
  {| params_x := 10; params_y := 20; linkURL := ""; srcURL := "";
     pageURL := "https://example.org/"; frameURL := ""; mediaType := "none";
     isEditable := false; selectionText := ""; misspelledWord := "";
     editFlags := {| canUndo := false; canRedo := false; canCut := false;
                     canCopy := false; canPaste := false; canSelectAll := true |};
     editable := None |}.

Definition pageOnlyMenu : CRExtensionRTContextMenu :=
  new_CRExtensionRTContextMenu "notes" "translate" pageOnlyData.

Definition allMenu : CRExtensionRTContextMenu :=
  new_CRExtensionRTContextMenu "notes" "save" allData.

Definition checkboxMenu : CRExtensionRTContextMenu :=
  new_CRExtensionRTContextMenu "vault" "dark" checkboxData.

(** ** Click closures of a template *)

(** The [click] closures of an entry and of the entries of its submenu. *)
Fixpoint clicksOf (entry : MenuItem) : list Click :=
  match entry with
  | mkMenuItem _ _ _ _ _ _ c sub =>
      match c with Some c => [c] | None => [] end
      ++ match sub with
         | Some entries =>
             flat_map (λ e, match e with Some e => clicksOf e | None => [] end) entries
         | None => []
         end
  end.

(** The [click] closures of a template, at any depth. *)
Definition clicksOfTemplate (template : list MenuItem) : list Click :=
  flat_map clicksOf template.

(** A closure that calls [extensionOptionSelected]. *)
Definition isExtensionClick (c : Click) : bool :=
  match c with
  | this_extensionOptionSelected _ _ _ _ => true
  | _ => false
  end.

(** The label of an entry and the labels of the entries of its submenu. *)
Definition outline (entry : MenuItem) : option string * option (list (option string)) :=
  (label entry,
   option_map
     (map (λ e : option MenuItem, match e with Some e => label e | None => None end))
     (submenu entry)).

(** ** Teardown *)

(** A call that destroys a menu or sets a timer. *)
Definition destroysOrSchedules (e : Effect) : bool :=
  match e with
  | FullDestroyMenu _ | SetTimeout _ _ => true
  | _ => false
  end.

Definition templateOf (menu : Menu) : list MenuItem :=
  match menu with
  | buildFromTemplate template => template
  end.

(** What the event loop holds for the menus: the timers that are pending,
    oldest first, and the menus that have been destroyed. *)
Record Loop := mkLoop {
  timers : list (TimerCallback * nat);
  destroyedMenus : list Menu
}.

Definition idle : Loop := {| timers := []; destroyedMenus := [] |}.

(** The mark one call leaves on the loop. *)
Definition perform (l : Loop) (e : Effect) : Loop :=
  match e with
  | SetTimeout callback ms =>
      {| timers := timers l ++ [(callback, ms)]; destroyedMenus := destroyedMenus l |}
  | FullDestroyMenu menu =>
      {| timers := timers l; destroyedMenus := destroyedMenus l ++ [menu] |}
  | _ => l
  end.

(** What can happen while a menu is displayed: an entry is clicked, or
    the oldest pending timer fires. *)
Inductive MenuEvent :=
  | entry_clicked (w : World) (c : Click)
  | timer_fired.

Definition loop_step (l : Loop) (e : MenuEvent) : Loop :=
  match e with
  | entry_clicked w c => fold_left perform (effects (run_click w c)) l
  | timer_fired =>
      match timers l with
      | [] => l
      | (callback, _) :: rest =>
          fold_left perform (effects (run_timer callback))
            {| timers := rest; destroyedMenus := destroyedMenus l |}
      end
  end.

(** ** Binding *)

(** The invariant of the binding: a surface whose id is in the bound set
    has one ['context-menu'] listener and a ['destroyed'] listener that
    removes its id; a live surface whose id is not in the set has no
    ['context-menu'] listener; and a ['destroyed'] listener on a surface
    removes the id of that surface only. *)
Definition boundOnce (s : System) : Prop :=
  ∀ contents : WebContents,
    (webContentsId contents ∈ privConnected s →
     contextMenuListeners s contents = 1
     ∧ on_destroyed_delete (webContentsId contents) ∈ listenersOn s contents)
    ∧ (webContentsId contents ∉ privConnected s →
       webContentsId contents ∉ destroyedContents s →
       contextMenuListeners s contents = 0)
    ∧ (contextMenuListeners s contents ≤ 1)%nat
    ∧ (∀ id', on_destroyed_delete id' ∈ listenersOn s contents →
              id' = webContentsId contents).

(** ** Further vocabulary *)

(** No entry of any section is a separator. *)
Definition noOwnSeparators (sections : list SectionTemplate) : bool :=
  forallb (λ section : SectionTemplate,
             match section with
             | Some entries => forallb (λ e, negb (isSeparator e)) entries
             | None => true
             end)
          sections.

(** Two separators stand next to each other somewhere in the template. *)
Fixpoint adjacentSeparators (template : list MenuItem) : bool :=
  match template with
  | a :: (b :: _) as rest => (isSeparator a && isSeparator b) || adjacentSeparators rest
  | _ => false
  end.





(** The suitability test of the deferred callback (lines 63-70): the
    surface has a root surface in a browser window, and it is not the root
    surface of a Wavebox window that has no context menu of its own. *)
Definition suitable (w : World) (contents : WebContents) : bool :=
  match rootWebContents w contents with
  | None => false
  | Some rootContents =>
      match fromWebContents w rootContents with
      | None => false
      | Some browserWindow =>
          match fromBrowserWindow w browserWindow with
          | Some waveboxWindow =>
              negb (negb (rootWebContentsHasContextMenu waveboxWindow)
                    && Nat.eqb (rootWebContentsId waveboxWindow)
                         (webContentsId contents))
          | None => true
          end
      end
  end.

(** No deferred callback of [events] runs in a world in which [contents]
    is suitable. *)
Definition neverSuitable (events : list AppEvent) (contents : WebContents) : bool :=
  forallb (λ e, match e with
                | run_immediate w => negb (suitable w contents)
                | _ => true
                end)
          events.

(** A creation event for [contents] is among [events]. *)
Definition announced (events : list AppEvent) (contents : WebContents) : Prop :=
  web_contents_created contents ∈ events
  ∨ ∃ window, browser_window_created window ∈ events ∧ webContents window = contents.

(** The state in which [contents] has just been bound. *)
Definition boundState (s : System) (contents : WebContents) : System :=
  {| privConnected := {[webContentsId contents]} ∪ privConnected s;
     listeners :=
       listeners s
       ++ [ (contents, on_context_menu_launchMenu);
            (contents, on_destroyed_delete (webContentsId contents)) ];
     immediates := immediates s;
     destroyedContents := destroyedContents s |}.

(** The world of the examples before the tab is attached: no surface has a
    root surface yet. *)
Definition detachedWorld : World :=
  {| isDestroyed := isDestroyed exampleWorld;
     canGoBack := canGoBack exampleWorld;
     canGoForward := canGoForward exampleWorld;
     getWebPreferences := getWebPreferences exampleWorld;
     rootWebContents := λ _, None;
     fromWebContents := fromWebContents exampleWorld;
     fromBrowserWindow := fromBrowserWindow exampleWorld;
     fromTabId := fromTabId exampleWorld;
     getOfType_MailboxesWindow := getOfType_MailboxesWindow exampleWorld;
     platform := platform exampleWorld;
     spellSuggestionsSync := spellSuggestionsSync exampleWorld;
     getHumanizedLanguageName := getHumanizedLanguageName exampleWorld;
     getInstalledDictionaries := getInstalledDictionaries exampleWorld;
     primaryLanguage := primaryLanguage exampleWorld;
     getRuntimeContextMenuData := getRuntimeContextMenuData exampleWorld;
     encodeURIComponent := encodeURIComponent exampleWorld |}.

(** A browser window whose surface is the tab. *)
Definition tabWindow : BrowserWindow :=
  {| browserWindowId := 11; webContents := tabSurface; ownerId := None |}.


(** The section has entries. *)
Definition shown (section : SectionTemplate) : bool :=
  match section with
  | Some (_ :: _) => true
  | _ => false
  end.

(** The menu that a run of [launchMenu] popped up, if it did. *)
Definition poppedUp (o : Outcome) : option Menu :=
  match effects o with
  | MenuPopup menu _ :: _ => Some menu
  | _ => None
  end.

(** The loop after the context-menu events [clicks], each with the world
    it happens in, starting from [l]. *)
Definition afterLaunches (clicks : list (World * Event * Params)) (l : Loop) : Loop :=
  fold_left
    (λ l (x : World * Event * Params),
       fold_left perform (effects (launchMenu x.1.1 x.1.2 x.2)) l)
    clicks l.

(** ** Entries of the extension section *)

(** The contributions of one extension, as the runtime holds them
    ([extensionId] is its key in the runtime data), that pass the filter:
    the instances made from its [[menuId, menuData]] pairs, in order. *)
Definition qualifying
    (params : Params) (extensionId : string)
    (data : ExtensionData (string * MenuData)) : list CRExtensionRTContextMenu :=
  List.filter
    (λ menu, filter_keeps (contextMenuFilter params menu))
    (map (λ pair : string * MenuData,
            new_CRExtensionRTContextMenu extensionId pair.1 pair.2)
         (contextMenus data)).

(** The type of the contribution is one of the four item types. *)
Definition knownType (menuItem : CRExtensionRTContextMenu) : Prop :=
  rt_type menuItem = ITEM_TYPES.NORMAL ∨ rt_type menuItem = ITEM_TYPES.CHECKBOX
  ∨ rt_type menuItem = ITEM_TYPES.RADIO ∨ rt_type menuItem = ITEM_TYPES.SEPERATOR.

(** What the entry [item] shown for the contribution [menuItem] carries: no
    submenu; for a normal, checkbox or radio contribution its title as
    label and a [click] closure that selects it, with its enabled state
    when it is normal and its type and checked state when it is a checkbox
    or a radio; for a separator the type separator and no closure; for any
    other type neither label nor closure. *)
Definition showsContribution
    (contents : WebContents) (params : Params) (extensionId : string)
    (menuItem : CRExtensionRTContextMenu) (item : MenuItem) : Prop :=
  submenu item = None
  ∧ (rt_type menuItem = ITEM_TYPES.NORMAL →
     label item = Some (rt_title menuItem)
     ∧ type item = None
     ∧ enabled item = Some (rt_enabled menuItem)
     ∧ click item
       = Some (this_extensionOptionSelected contents extensionId menuItem params))
  ∧ (rt_type menuItem = ITEM_TYPES.CHECKBOX ∨ rt_type menuItem = ITEM_TYPES.RADIO →
     label item = Some (rt_title menuItem)
     ∧ type item = Some (rt_type menuItem)
     ∧ checked item = Some (rt_checked menuItem)
     ∧ click item
       = Some (this_extensionOptionSelected contents extensionId menuItem params))
  ∧ (rt_type menuItem = ITEM_TYPES.SEPERATOR →
     type item = Some "separator" ∧ label item = None ∧ click item = None)
  ∧ (¬ knownType menuItem → label item = None ∧ type item = None ∧ click item = None).

(** The element of a submenu that stands for the contribution [menuItem]:
    an entry that shows it and has no icon, or [undefined] when the type of
    the contribution is none of the four. *)
Definition submenuElement
    (contents : WebContents) (params : Params) (extensionId : string)
    (menuItem : CRExtensionRTContextMenu) (element : option MenuItem) : Prop :=
  match element with
  | Some item =>
      knownType menuItem ∧ icon item = None
      ∧ showsContribution contents params extensionId menuItem item
  | None => ¬ knownType menuItem
  end.

(** What the extension [ext] of the runtime data contributes to the
    section as [emitted]: nothing when none of its contributions
    qualifies; when exactly one does, one entry that shows it and carries
    the icon of the extension; when two or more do, one entry that has the
    name of the extension as label, its icon, no closure, and a submenu
    with one element for each qualifying contribution, in order. *)
Definition contributes
    (contents : WebContents) (params : Params)
    (ext : string * ExtensionData (string * MenuData)) (emitted : list MenuItem) : Prop :=
  match qualifying params ext.1 ext.2 with
  | [] => emitted = []
  | [menuItem] =>
      ∃ item,
        emitted = [item]
        ∧ icon item = Some (createFromPath (icons ext.2 !! "16"))
        ∧ showsContribution contents params ext.1 menuItem item
  | valid =>
      ∃ item elements,
        emitted = [item]
        ∧ label item = Some (name ext.2)
        ∧ icon item = Some (createFromPath (icons ext.2 !! "16"))
        ∧ type item = None ∧ click item = None
        ∧ submenu item = Some elements
        ∧ Forall2 (submenuElement contents params ext.1) valid elements
  end.

(** * Properties *)

(** ** Template assembly *)

Lemma appendSection_nonEmpty acc entry entries :
  appendSection acc (Some (entry :: entries)) = acc ++ (entry :: entries) ++ [separator].
Proof. reflexivity. Qed.

Lemma fold_appendSection sections : ∀ acc,
  fold_left appendSection sections acc
  = acc ++ concat (map (λ s, s ++ [separator]) (nonEmptySections sections)).
Proof.
  induction sections as [|section sections IH]; intros acc; simpl.
  - by rewrite app_nil_r.
  - rewrite IH. destruct section as [[|entry entries]|]; simpl.
    + reflexivity.
    + rewrite <- app_assoc. reflexivity.
    + reflexivity.
Qed.

Lemma joinSections_cons section rest :
  rest ≠ [] → joinSections (section :: rest) = section ++ separator :: joinSections rest.
Proof. by destruct rest. Qed.

Lemma concat_with_separators l :
  l ≠ [] → concat (map (λ s, s ++ [separator]) l) = joinSections l ++ [separator].
Proof.
  induction l as [|section rest IH]; [done|]. intros _.
  destruct rest as [|section' rest].
  - simpl. by rewrite app_nil_r.
  - rewrite joinSections_cons by done.
    change (concat (map _ (section :: ?r))) with
      ((section ++ [separator]) ++ concat (map (λ s, s ++ [separator]) r)).
    rewrite IH by done. by rewrite <- !app_assoc.
Qed.

Lemma slice_0_minus1_snoc {A} (l : list A) (x : A) : slice_0_minus1 (l ++ [x]) = l.
Proof.
  unfold slice_0_minus1. rewrite length_app. simpl.
  replace (length l + 1 - 1) with (length l) by lia.
  by rewrite take_app_length.
Qed.

(** The template is the join of the sections that have entries. *)
Lemma convertSectionsToTemplate_join sections :
  convertSectionsToTemplate sections = joinSections (nonEmptySections sections).
Proof.
  unfold convertSectionsToTemplate. rewrite fold_appendSection. simpl.
  destruct (nonEmptySections sections) as [|section rest] eqn:E; [done|].
  rewrite concat_with_separators by done. apply slice_0_minus1_snoc.
Qed.

Lemma nonEmptySections_nonEmpty sections :
  Forall (λ s, s ≠ []) (nonEmptySections sections).
Proof.
  induction sections as [|[[|entry entries]|] sections IH]; simpl; auto.
Qed.

Lemma joinSections_length l :
  length (joinSections l) = length (concat l) + (length l - 1).
Proof.
  induction l as [|section rest IH]; [done|].
  destruct rest as [|section' rest].
  - simpl. rewrite app_nil_r. lia.
  - rewrite joinSections_cons by done.
    change (concat (section :: ?r)) with (section ++ concat r).
    rewrite !length_app.
    change (length (separator :: ?r)) with (S (length r)).
    rewrite IH. simpl. lia.
Qed.

Lemma countSeparators_app l1 l2 :
  countSeparators (l1 ++ l2) = countSeparators l1 + countSeparators l2.
Proof. unfold countSeparators. by rewrite List.filter_app, length_app. Qed.

Lemma joinSections_countSeparators l :
  countSeparators (joinSections l) = (length l - 1) + countSeparators (concat l).
Proof.
  induction l as [|section rest IH]; [done|].
  destruct rest as [|section' rest].
  - simpl. by rewrite app_nil_r.
  - rewrite joinSections_cons by done.
    change (concat (section :: ?r)) with (section ++ concat r).
    rewrite !countSeparators_app.
    change (countSeparators (separator :: ?r)) with (S (countSeparators r)).
    rewrite IH. simpl. lia.
Qed.

Lemma joinSections_head l :
  Forall (λ s, s ≠ []) l → head (joinSections l) = head (concat l).
Proof.
  destruct 1 as [|section rest Hs _]; [done|].
  destruct rest; destruct section; done.
Qed.

Lemma joinSections_last l :
  Forall (λ s, s ≠ []) l → last (joinSections l) = last (concat l).
Proof.
  induction 1 as [|section rest Hs Hrest IH]; [done|].
  destruct rest as [|section' rest].
  - simpl. by rewrite app_nil_r.
  - rewrite joinSections_cons by done.
    change (concat (section :: ?r)) with (section ++ concat r).
    inversion Hrest as [|? ? Hs' _]; subst.
    assert (Hne : joinSections (section' :: rest) ≠ []).
    { destruct rest; destruct section'; done. }
    rewrite last_app_cons, last_cons.
    rewrite last_app. rewrite <- IH.
    destruct (last (joinSections (section' :: rest))) eqn:E1; [done|].
    by apply last_None in E1.
Qed.

(** The example of the spec: [[[], [A], [], [B, C]]] gives
    [[A, separator, B, C]], and an [undefined] section counts as empty. *)
Example convertSectionsToTemplate_example (A B C : MenuItem) :
  convertSectionsToTemplate [Some []; Some [A]; None; Some []; Some [B; C]]
  = [A; separator; B; C].
Proof. reflexivity. Qed.

(** C1, as stated, fails.  On the tab, with an extension whose only
    contribution is a separator, five sections have entries and the
    template that [launchMenu] assembles holds five separators, not four:
    the extension section holds one of its own.  And two sections the
    second of which is just such an entry give a template that ends with a
    separator. *)
Lemma convertSectionsToTemplate_own_separators :
  (let sections := sectionsOf dividerWorld tabSurface pageParams in
   renderExtensionSection dividerWorld tabSurface pageParams = Some [ownSeparator]
   ∧ length (nonEmptySections sections) = 5
   ∧ countSeparators (convertSectionsToTemplate sections) = 5
   ∧ countSeparators (convertSectionsToTemplate sections)
     ≠ length (nonEmptySections sections) - 1)
  ∧ (let sections := [Some [roleItem "Copy" "copy"]; Some [ownSeparator]] in
     length (nonEmptySections sections) = 2
     ∧ countSeparators (convertSectionsToTemplate sections) = 2
     ∧ (isSeparator <$> last (convertSectionsToTemplate sections)) = Some true).
Proof. vm_compute. repeat split. discriminate. Qed.

(** C1, amended: sections without entries leave nothing in the template;
    the template is the sections that have entries, in order, with exactly
    one separator put between each adjacent pair and none put before the
    first or after the last.  So for N sections with entries the template
    has the entries of these sections and N-1 further entries, its
    separators are N-1 more than the entries of type separator that the
    sections hold themselves, it begins with the first entry of the first
    such section and ends with the last entry of the last one, and it is
    empty when no section has entries. *)
Theorem convertSectionsToTemplate_spec (sections : list SectionTemplate) :
  let kept := nonEmptySections sections in
  let template := convertSectionsToTemplate sections in
  template = joinSections kept
  ∧ length template = length (concat kept) + (length kept - 1)
  ∧ countSeparators template = (length kept - 1) + countSeparators (concat kept)
  ∧ head template = head (concat kept)
  ∧ last template = last (concat kept).
Proof.
  intros kept template. subst template kept.
  rewrite convertSectionsToTemplate_join.
  pose proof (nonEmptySections_nonEmpty sections) as Hne.
  split; [reflexivity|].
  split; [apply joinSections_length|].
  split; [apply joinSections_countSeparators|].
  split; [by apply joinSections_head | by apply joinSections_last].
Qed.

(** ** Extension section *)

Lemma elem_of_contexts (c : string) (l : list string) :
  c ∈ (list_to_set l : gset string) ↔ c ∈ l.
Proof. apply elem_of_list_to_set. Qed.

(** What the filter of [renderExtensionSection] keeps: the contributions
    whose contexts hold [all], and, on an editable target, those whose
    contexts hold [editable]. *)
Lemma contextMenuFilter_keeps params menu :
  filter_keeps (contextMenuFilter params menu) = true
  ↔ CONTEXT_TYPES.ALL ∈ rt_contexts menu
    ∨ (isEditable params = true ∧ CONTEXT_TYPES.EDITABLE ∈ rt_contexts menu).
Proof.
  unfold contextMenuFilter.
  change (js_or CONTEXT_TYPES.ALL CONTEXT_TYPES.PAGE) with CONTEXT_TYPES.ALL.
  cbv zeta.
  destruct (bool_decide_reflect
              (CONTEXT_TYPES.ALL ∈ (list_to_set (rt_contexts menu) : gset string)))
    as [Hall|Hall]; rewrite elem_of_contexts in Hall.
  { simpl. split; [by left|done]. }
  destruct (bool_decide_reflect
              (CONTEXT_TYPES.EDITABLE ∈ (list_to_set (rt_contexts menu) : gset string)))
    as [Hed|Hed]; rewrite elem_of_contexts in Hed;
    destruct (isEditable params); simpl; split; intros H; try done.
  - by right.
  - destruct H as [?|[? ?]]; done.
  - destruct H as [?|[? ?]]; done.
  - destruct H as [?|[? ?]]; done.
Qed.

(** C2: the filter drops a page-level contribution.  A contribution whose
    contexts are [["page"]] is page-level, yet on a target that is not
    editable the callback returns [undefined] for it and the filter removes
    it, while it keeps the contribution whose contexts are [["all"]]:
    [ALL || PAGE] is [ALL], so [PAGE] is never looked up. *)
Theorem contextMenuFilter_drops_page_contribution :
  pageLevel pageOnlyMenu
  ∧ isEditable pageParams = false
  ∧ js_or CONTEXT_TYPES.ALL CONTEXT_TYPES.PAGE = CONTEXT_TYPES.ALL
  ∧ contextMenuFilter pageParams pageOnlyMenu = None
  ∧ validContextMenusOf pageParams [allMenu; pageOnlyMenu] = [allMenu].
Proof.
  split; [right; apply list_elem_of_here|].
  repeat split; vm_compute; reflexivity.
Qed.

Lemma pushExtension_app contents params template entry :
  pushExtension contents params template entry
  = template ++ extensionEntries contents params entry.
Proof.
  unfold extensionEntries, pushExtension. destruct entry as [extensionId data].
  destruct (validContextMenusOf params (contextMenus data)) as [|m1 [|m2 rest]];
    simpl; by rewrite ?app_nil_r.
Qed.

Lemma fold_pushExtension contents params extensions : ∀ template,
  fold_left (pushExtension contents params) extensions template
  = template ++ flat_map (extensionEntries contents params) extensions.
Proof.
  induction extensions as [|entry extensions IH]; intros template; simpl.
  - by rewrite app_nil_r.
  - by rewrite IH, pushExtension_app, <- app_assoc.
Qed.

(** The extension section on the tab, for a click in an editable field:
    one contribution of Notes passes the filter and is flattened, three of
    Vault pass and are grouped. *)
Example renderExtensionSection_on_tab :
  map outline
    (default [] (renderExtensionSection exampleWorld tabSurface editableParams))
  = [ (Some "Save to notes", None);
      (Some "Vault",
       Some [Some "Dark mode"; Some "Fill password"; Some "Save to notes"]) ].
Proof. vm_compute. reflexivity. Qed.

Lemma renderExtensionMenuItem_shows contents params extensionId menuItem :
  match renderExtensionMenuItem contents params extensionId menuItem with
  | Some item =>
      knownType menuItem ∧ icon item = None
      ∧ showsContribution contents params extensionId menuItem item
  | None => ¬ knownType menuItem
  end.
Proof.
  unfold renderExtensionMenuItem, showsContribution, knownType.
  destruct (String.eqb_spec (rt_type menuItem) ITEM_TYPES.NORMAL) as [E1|E1].
  { rewrite E1. simpl. split; [by left|]. split; [done|]. split; [done|].
    split; [done|]. split; [by intros [?|?]|]. split; [done|].
    intros H. exfalso. apply H. by left. }
  destruct (String.eqb_spec (rt_type menuItem) ITEM_TYPES.CHECKBOX) as [E2|E2].
  { simpl. split; [by right; left|]. split; [done|]. split; [done|].
    split; [done|]. split; [by rewrite E2|]. split; [by rewrite E2|].
    intros H. exfalso. apply H. by right; left. }
  destruct (String.eqb_spec (rt_type menuItem) ITEM_TYPES.RADIO) as [E3|E3].
  { simpl. split; [by right; right; left|]. split; [done|]. split; [done|].
    split; [done|]. split; [by rewrite E3|]. split; [by rewrite E3|].
    intros H. exfalso. apply H. by right; right; left. }
  destruct (String.eqb_spec (rt_type menuItem) ITEM_TYPES.SEPERATOR) as [E4|E4].
  { simpl. split; [by right; right; right|]. split; [done|]. split; [done|].
    split; [done|]. split; [by intros [?|?]|]. split; [done|].
    intros H. exfalso. apply H. by right; right; right. }
  intros [?|[?|[?|?]]]; done.
Qed.

Lemma Object_assign_iconOnly_shows data contents params extensionId menuItem :
  let item :=
    Object_assign (iconOnly data)
      (renderExtensionMenuItem contents params extensionId menuItem) in
  icon item = Some (createFromPath (icons data !! "16"))
  ∧ showsContribution contents params extensionId menuItem item.
Proof.
  pose proof (renderExtensionMenuItem_shows contents params extensionId menuItem)
    as H.
  destruct (renderExtensionMenuItem contents params extensionId menuItem)
    as [rendered|]; simpl.
  - destruct H as (_ & Hicon & Hsub & Hshows). rewrite Hicon, Hsub. simpl.
    split; [done|]. split; [done|].
    destruct rendered as [l t r e c i k s]. simpl in *.
    destruct Hshows as (H1 & H2 & H3 & H4).
    split; [|split; [|split]].
    + intros E. destruct (H1 E) as (-> & -> & -> & ->). done.
    + intros E. destruct (H2 E) as (-> & -> & -> & ->). done.
    + intros E. destruct (H3 E) as (-> & -> & ->). done.
    + intros E. destruct (H4 E) as (-> & -> & ->). done.
  - split; [done|]. split; [done|].
    split; [|split; [|split]]; try done; intros E; exfalso; apply H;
      unfold knownType; tauto.
Qed.

Lemma qualifying_convertContextMenus params extensionId data :
  validContextMenusOf params
    (contextMenus
       {| name := name data; icons := icons data;
          contextMenus :=
            map (λ '(menuId, menuData),
                   new_CRExtensionRTContextMenu extensionId menuId menuData)
                (contextMenus data) |})
  = qualifying params extensionId data.
Proof.
  unfold validContextMenusOf, qualifying. simpl. f_equal.
  apply map_ext. by intros [menuId menuData].
Qed.

Lemma extensionEntries_contributes contents params extensionId data :
  contributes contents params (extensionId, data)
    (extensionEntries contents params
       (extensionId,
        {| name := name data; icons := icons data;
           contextMenus :=
             map (λ '(menuId, menuData),
                    new_CRExtensionRTContextMenu extensionId menuId menuData)
                 (contextMenus data) |})).
Proof.
  set (converted :=
         {| name := name data; icons := icons data;
            contextMenus :=
              map (λ '(menuId, menuData),
                     new_CRExtensionRTContextMenu extensionId menuId menuData)
                  (contextMenus data) |}).
  assert (E : validContextMenusOf params (contextMenus converted)
              = qualifying params extensionId data)
    by apply qualifying_convertContextMenus.
  unfold contributes, extensionEntries, pushExtension.
  simpl fst. simpl snd. rewrite E.
  destruct (qualifying params extensionId data) as [|m1 [|m2 rest]]; [done| |].
  - eexists. split; [reflexivity|].
    apply (Object_assign_iconOnly_shows converted).
  - eexists _, _. split; [reflexivity|]. repeat (split; [reflexivity|]).
    generalize (m1 :: m2 :: rest). intros valid.
    induction valid as [|m valid IH]; simpl; constructor; [|exact IH].
    apply renderExtensionMenuItem_shows.
Qed.

(** C3, as stated, fails: on the root surface, which is no recognized tab,
    one contribution of the first extension and three of the second pass
    the filter, and the section has no entry for either. *)
Lemma renderExtensionSection_no_entry_off_tab :
  fromTabId exampleWorld (webContentsId rootSurface) = None
  ∧ map (λ ext, length (qualifying editableParams ext.1 ext.2))
      (getRuntimeContextMenuData exampleWorld) = [1; 3]
  ∧ renderExtensionSection exampleWorld rootSurface editableParams = Some [].
Proof. vm_compute. repeat split. Qed.

(** C3, amended: on a surface that [WaveboxWindow.fromTabId] recognizes the
    extension section is, extension after extension in the order of the
    runtime data, what each extension contributes: no entry when none of
    its contributions passes the filter; when exactly one passes, a single
    flattened entry, the rendering of that contribution with the icon of
    the extension and without submenu; when two or more pass, a single
    entry labelled with the name of the extension whose submenu holds the
    renderings of the contributions that pass, in order.  On any other
    surface the section has no entry for any extension. *)
Theorem renderExtensionSection_per_extension
    (w : World) (contents : WebContents) (params : Params) :
  match fromTabId w (webContentsId contents) with
  | Some waveboxWindow =>
      ∃ perExtension : list (list MenuItem),
        renderExtensionSection w contents params = Some (concat perExtension)
        ∧ Forall2 (contributes contents params)
            (getRuntimeContextMenuData w) perExtension
  | None => renderExtensionSection w contents params = Some []
  end.
Proof.
  unfold renderExtensionSection.
  destruct (fromTabId w (webContentsId contents)) as [waveboxWindow|]; [|done].
  rewrite fold_pushExtension. simpl.
  exists (map (extensionEntries contents params)
            (convertContextMenus (getRuntimeContextMenuData w))).
  split; [by rewrite flat_map_concat_map|].
  unfold convertContextMenus.
  induction (getRuntimeContextMenuData w) as [|[extensionId data] extensions IH];
    simpl; constructor; [|exact IH].
  apply extensionEntries_contributes.
Qed.

(** ** Order of the sections *)

Lemma joinSections_middle k1 section k2 :
  ∃ before,
    joinSections (k1 ++ section :: k2)
    = before ++ section
      ++ match k2 with [] => [] | _ => separator :: joinSections k2 end.
Proof.
  induction k1 as [|first k1 [before IH]].
  - exists []. destruct k2; simpl; by rewrite ?app_nil_r.
  - exists (first ++ separator :: before).
    change ((first :: k1) ++ section :: k2) with (first :: (k1 ++ section :: k2)).
    rewrite joinSections_cons by (by destruct k1).
    rewrite IH. by rewrite <- app_assoc.
Qed.

Lemma nonEmptySections_app s1 s2 :
  nonEmptySections (s1 ++ s2) = nonEmptySections s1 ++ nonEmptySections s2.
Proof. apply omap_app. Qed.

Lemma nonEmptySections_cons_elem entries (e : MenuItem) rest :
  e ∈ entries →
  nonEmptySections (Some entries :: rest) = entries :: nonEmptySections rest.
Proof. destruct entries; [by intros ?%elem_of_nil|done]. Qed.

(** Entries of an earlier section come before entries of a later one in
    the assembled template. *)
Lemma convertSectionsToTemplate_order sections (i j : nat) si sj (a b : MenuItem) :
  (i < j)%nat →
  sections !! i = Some (Some si) → sections !! j = Some (Some sj) →
  a ∈ si → b ∈ sj →
  ∃ l1 l2 l3, convertSectionsToTemplate sections = l1 ++ a :: l2 ++ b :: l3.
Proof.
  intros Hij Hi Hj Ha Hb.
  rewrite convertSectionsToTemplate_join.
  assert (Hj' : drop (S i) sections !! (j - S i)%nat = Some (Some sj)).
  { rewrite lookup_drop. rewrite <- Hj. f_equal. lia. }
  assert (∃ s1 s2 s3, sections = s1 ++ Some si :: s2 ++ Some sj :: s3)
    as (s1 & s2 & s3 & ->).
  { eexists _, _, _.
    rewrite <- (take_drop_middle sections i (Some si) Hi) at 1.
    by rewrite <- (take_drop_middle _ _ _ Hj') at 1. }
  clear Hi Hj Hj'.
  rewrite nonEmptySections_app, (nonEmptySections_cons_elem si a) by done.
  rewrite nonEmptySections_app, (nonEmptySections_cons_elem sj b) by done.
  destruct (joinSections_middle (nonEmptySections s1) si
              (nonEmptySections s2 ++ sj :: nonEmptySections s3)) as [p1 ->].
  destruct (joinSections_middle (nonEmptySections s2) sj (nonEmptySections s3))
    as [p2 E2].
  destruct (nonEmptySections s2 ++ sj :: nonEmptySections s3) eqn:E;
    [by destruct (nonEmptySections s2)|].
  rewrite E2.
  apply list_elem_of_split in Ha as (xa & ya & ->).
  apply list_elem_of_split in Hb as (xb & yb & ->).
  exists (p1 ++ xa), (ya ++ separator :: p2 ++ xb),
    (yb ++ match nonEmptySections s3 with
           | [] => []
           | _ => separator :: joinSections (nonEmptySections s3)
           end).
  by rewrite <- !app_assoc; simpl; rewrite <- !app_assoc.
Qed.

(** The menu of a right click on a misspelled word in an editable field of
    the tab: the labels of its entries, [None] for a separator. *)
Example launchMenu_labels_on_tab :
  map label
    (convertSectionsToTemplate (sectionsOf exampleWorld tabSurface editableParams))
  = [ Some "the"; Some "ten"; None;
      Some "Add “teh” to Dictionary"; Some "Search Google for “teh”"; None;
      Some "Undo"; Some "Redo"; None;
      Some "Cut"; Some "Copy"; Some "Paste"; Some "Paste and match style";
      Some "Select all"; None;
      Some "Go Back"; Some "Go Forward"; Some "Reload"; None;
      Some "Copy current URL"; Some "Open page in Browser";
      Some "Open page with Wavebox"; None;
      Some "Save to notes"; Some "Vault"; None;
      Some "Wavebox Settings"; Some "Change Dictionary"; Some "Inspect" ].
Proof. vm_compute. reflexivity. Qed.

(** C4: when the window of the sender resolves, the menu that [launchMenu]
    pops up is built from the nine sections in the order spelling, URL,
    lookup and search, undo and redo, editing, page navigation, page
    external, extensions, Wavebox: its template is the join of those of the
    nine that have entries, in that order, so an entry of a section
    precedes every entry of a section later in the list. *)
Theorem launchMenu_section_order
    (w : World) (evt : Event) (params : Params)
    (rootContents : WebContents) (browserWindow : BrowserWindow) :
  rootWebContents w (sender evt) = Some rootContents →
  fromWebContents w rootContents = Some browserWindow →
  let contents := sender evt in
  let sections :=
    [ renderSpellingSection w contents params;
      renderURLSection w contents params;
      renderLookupAndSearchSection contents params;
      renderRewindSection contents params;
      renderEditingSection contents params;
      renderPageNavigationSection w contents params;
      renderPageExternalSection contents params;
      renderExtensionSection w contents params;
      renderWaveboxSection w contents params ] in
  let template := joinSections (nonEmptySections sections) in
  launchMenu w evt params
  = returns [ MenuPopup (buildFromTemplate template) browserWindow;
              SetTimeout (MenuTool_fullDestroyMenu (buildFromTemplate template)) 100 ]
  ∧ ∀ (i j : nat) si sj a b,
      (i < j)%nat →
      sections !! i = Some (Some si) → sections !! j = Some (Some sj) →
      a ∈ si → b ∈ sj →
      ∃ l1 l2 l3, template = l1 ++ a :: l2 ++ b :: l3.
Proof.
  intros Hroot Hwindow contents sections template. split.
  - unfold launchMenu. rewrite Hroot, Hwindow.
    unfold sectionsOf. fold contents. fold sections.
    by rewrite convertSectionsToTemplate_join.
  - intros i j si sj a b Hij Hi Hj Ha Hb. subst template.
    rewrite <- convertSectionsToTemplate_join.
    by eapply convertSectionsToTemplate_order.
Qed.

Lemma launchMenu_section_order_witness :
  rootWebContents exampleWorld tabSurface = Some rootSurface
  ∧ fromWebContents exampleWorld rootSurface = Some mainWindow
  ∧ ∃ menu,
      launchMenu exampleWorld {| sender := tabSurface |} editableParams
      = returns [ MenuPopup menu mainWindow;
                  SetTimeout (MenuTool_fullDestroyMenu menu) 100 ].
Proof.
  split; [reflexivity|]. split; [reflexivity|].
  eexists.
  apply (launchMenu_section_order
           exampleWorld {| sender := tabSurface |} editableParams
           rootSurface mainWindow); reflexivity.
Defined.

(** ** Aborted launches *)

(** C7: when the sender has no root surface, or its root surface is in no
    browser window, [launchMenu] returns at once: it makes no call with an
    effect, so no menu is built or popped up and no teardown is scheduled,
    and it does not throw; this holds whatever the parameters of the event
    are and whatever the section builders would read. *)
Theorem launchMenu_aborts_without_window (w : World) (evt : Event) (params : Params) :
  (rootWebContents w (sender evt) = None
   ∨ ∃ rootContents,
       rootWebContents w (sender evt) = Some rootContents
       ∧ fromWebContents w rootContents = None) →
  launchMenu w evt params = returns []
  ∧ effects (launchMenu w evt params) = []
  ∧ thrown (launchMenu w evt params) = None.
Proof.
  intros H.
  assert (E : launchMenu w evt params = returns []).
  { unfold launchMenu. destruct H as [->|(rootContents & -> & ->)]; reflexivity. }
  by rewrite E.
Qed.

Lemma launchMenu_aborts_without_window_witness :
  rootWebContents exampleWorld rootlessSurface = None
  ∧ launchMenu exampleWorld {| sender := rootlessSurface |} editableParams = returns []
  ∧ fromWebContents exampleWorld windowlessSurface = None
  ∧ launchMenu exampleWorld {| sender := windowlessSurface |} editableParams = returns [].
Proof.
  split; [reflexivity|]. split.
  - apply (launchMenu_aborts_without_window
             exampleWorld {| sender := rootlessSurface |} editableParams).
    left. reflexivity.
  - split; [reflexivity|].
    apply (launchMenu_aborts_without_window
             exampleWorld {| sender := windowlessSurface |} editableParams).
    right. exists windowlessSurface. split; reflexivity.
Defined.

(** ** Selection of an extension entry *)

(** The payload carries the previous and the next checked state exactly for
    a checkbox or a radio entry. *)
Lemma clickParamsOf_checked menuItem params :
  let clickParams := clickParamsOf menuItem params in
  if decide (rt_type menuItem = ITEM_TYPES.CHECKBOX ∨ rt_type menuItem = ITEM_TYPES.RADIO)
  then cp_wasChecked clickParams = Some (rt_checked menuItem)
       ∧ cp_checked clickParams = Some (negb (rt_checked menuItem))
  else cp_wasChecked clickParams = None ∧ cp_checked clickParams = None.
Proof.
  unfold clickParamsOf. cbv zeta. simpl.
  destruct (String.eqb_spec (rt_type menuItem) ITEM_TYPES.CHECKBOX) as [E1|E1];
    destruct (String.eqb_spec (rt_type menuItem) ITEM_TYPES.RADIO) as [E2|E2];
    destruct (decide _) as [E|E]; simpl; try done;
    solve [ exfalso; apply E; auto | destruct E; done ].
Qed.

(** On a surface that is alive the selection is forwarded once, with the
    ids of the entry and of its parent, the media type unless it is
    ['none'], the four URLs and the selection text. *)
Lemma extensionOptionSelected_alive w contents extensionId menuItem params :
  isDestroyed w contents = false →
  ∃ clickParams,
    extensionOptionSelected w contents extensionId menuItem params
    = returns [ContextMenuItemSelected extensionId contents clickParams]
    ∧ cp_menuItemId clickParams = rt_id menuItem
    ∧ cp_parentMenuItemId clickParams = rt_parentId menuItem
    ∧ cp_mediaType clickParams
      = (if String.eqb (mediaType params) "none" then None else Some (mediaType params))
    ∧ cp_linkUrl clickParams = linkURL params
    ∧ cp_srcUrl clickParams = srcURL params
    ∧ cp_pageUrl clickParams = pageURL params
    ∧ cp_frameUrl clickParams = frameURL params
    ∧ cp_selectionText clickParams = selectionText params
    ∧ cp_editable clickParams = editable params.
Proof.
  intros Halive. exists (clickParamsOf menuItem params).
  unfold extensionOptionSelected. rewrite Halive. repeat split.
Qed.

(** C5: the editability of the click target does not reach the payload.
    For a right click in an editable field ([isEditable] is [true], and the
    parameters have no property [editable]) the selection of a checkbox
    entry is forwarded with the previous and the next checked state, but
    with [editable] undefined. *)
Theorem extensionOptionSelected_editable_undefined :
  isEditable editableParams = true
  ∧ ∃ clickParams,
      extensionOptionSelected exampleWorld tabSurface "vault" checkboxMenu editableParams
      = returns [ContextMenuItemSelected "vault" tabSurface clickParams]
      ∧ cp_wasChecked clickParams = Some true
      ∧ cp_checked clickParams = Some false
      ∧ cp_editable clickParams = None.
Proof.
  split; [reflexivity|]. eexists. repeat split.
Qed.

(** ** Teardown *)

Lemma run_click_no_teardown (w : World) (c : Click) :
  Forall (λ e, destroysOrSchedules e = false) (effects (run_click w c)).
Proof.
  destruct c; simpl;
    unfold openLinkInWaveboxWindow, openWaveboxSettings, extensionOptionSelected;
    repeat case_match; simpl; repeat constructor.
Qed.

(** C9, as stated, fails: the menu of a right click on the tab is popped up
    and its teardown is set on a timer; the [click] closure of its entry
    [Reload] then runs and reloads the surface; it does not destroy the
    menu, and the timer is still pending. *)
Lemma selection_does_not_tear_down :
  ∃ menu item c,
    launchMenu exampleWorld {| sender := tabSurface |} pageParams
    = returns [ MenuPopup menu mainWindow;
                SetTimeout (MenuTool_fullDestroyMenu menu) 100 ]
    ∧ item ∈ templateOf menu
    ∧ label item = Some "Reload"
    ∧ click item = Some c
    ∧ run_click exampleWorld c = returns [Reload tabSurface]
    ∧ (FullDestroyMenu menu ∉ effects (run_click exampleWorld c))
    ∧ loop_step
        (fold_left perform
           (effects (launchMenu exampleWorld {| sender := tabSurface |} pageParams))
           idle)
        (entry_clicked exampleWorld c)
      = {| timers := [(MenuTool_fullDestroyMenu menu, 100)]; destroyedMenus := [] |}.
Proof.
  eexists _, _, (contents_reload tabSurface).
  split; [reflexivity|]. split.
  { vm_compute. do 4 apply list_elem_of_further. apply list_elem_of_here. }
  split; [reflexivity|]. split; [reflexivity|]. split; [reflexivity|].
  split; [|reflexivity].
  simpl. intros H. apply list_elem_of_singleton in H. discriminate H.
Qed.

Lemma perform_no_teardown l es :
  Forall (λ e, destroysOrSchedules e = false) es → fold_left perform es l = l.
Proof.
  induction 1 as [|e es He _ IH]; simpl; [done|].
  destruct e; try discriminate He; exact IH.
Qed.

(** Clicks leave the pending timers and the destroyed menus as they are. *)
Lemma clicks_keep_loop (clicks : list (World * Click)) : ∀ l,
  fold_left loop_step (map (λ wc, entry_clicked wc.1 wc.2) clicks) l = l.
Proof.
  induction clicks as [|[w c] clicks IH]; intros l; simpl; [done|].
  rewrite (perform_no_teardown l _ (run_click_no_teardown w c)). apply IH.
Qed.

(** C9, amended: for every menu that is displayed, [launchMenu] sets the
    teardown once, on a timer of 100 ms, right after popping the menu up
    and whether or not an entry is clicked; no [click] closure of the file
    destroys a menu or sets a timer, and the service has no call that
    cancels one: after any number of clicks the menu is not destroyed and
    the timer is still the one pending, and the menu is destroyed when the
    timer fires. *)
Theorem teardown_by_timer_only
    (w : World) (evt : Event) (params : Params)
    (rootContents : WebContents) (browserWindow : BrowserWindow) :
  rootWebContents w (sender evt) = Some rootContents →
  fromWebContents w rootContents = Some browserWindow →
  ∃ menu,
    launchMenu w evt params
    = returns [ MenuPopup menu browserWindow;
                SetTimeout (MenuTool_fullDestroyMenu menu) 100 ]
    ∧ (∀ (w' : World) (c : Click),
         Forall (λ e, destroysOrSchedules e = false) (effects (run_click w' c)))
    ∧ ∀ clicks : list (World * Click),
        let displayed := fold_left perform (effects (launchMenu w evt params)) idle in
        let clicked :=
          fold_left loop_step (map (λ wc, entry_clicked wc.1 wc.2) clicks) displayed in
        timers clicked = [(MenuTool_fullDestroyMenu menu, 100)]
        ∧ destroyedMenus clicked = []
        ∧ timers (loop_step clicked timer_fired) = []
        ∧ destroyedMenus (loop_step clicked timer_fired) = [menu].
Proof.
  intros Hroot Hwindow. eexists. split.
  - unfold launchMenu. rewrite Hroot, Hwindow. reflexivity.
  - split; [apply run_click_no_teardown|].
    intros clicks displayed clicked. subst clicked.
    rewrite clicks_keep_loop. subst displayed.
    unfold launchMenu. rewrite Hroot, Hwindow. simpl. done.
Qed.

Lemma teardown_by_timer_only_witness :
  rootWebContents exampleWorld tabSurface = Some rootSurface
  ∧ fromWebContents exampleWorld rootSurface = Some mainWindow
  ∧ ∃ menu,
      launchMenu exampleWorld {| sender := tabSurface |} pageParams
      = returns [ MenuPopup menu mainWindow;
                  SetTimeout (MenuTool_fullDestroyMenu menu) 100 ].
Proof.
  split; [reflexivity|]. split; [reflexivity|].
  destruct (teardown_by_timer_only
              exampleWorld {| sender := tabSurface |} pageParams
              rootSurface mainWindow eq_refl eq_refl) as (menu & H1 & _).
  exists menu. exact H1.
Defined.

(** ** Binding *)

Lemma boundOnce_ext s s' :
  privConnected s = privConnected s' → listeners s = listeners s' →
  destroyedContents s = destroyedContents s' →
  boundOnce s → boundOnce s'.
Proof.
  destruct s, s'; simpl. intros -> -> -> H. exact H.
Qed.

Lemma boundOnce_initial : boundOnce initial.
Proof.
  intros contents. cbn.
  split; [intros H; by apply elem_of_empty in H|].
  split; [done|]. split; [lia|].
  intros id' H. by apply elem_of_nil in H.
Qed.

Lemma webContentsId_inj c c' : webContentsId c = webContentsId c' → c = c'.
Proof. destruct c, c'; simpl; by intros ->. Qed.

(** The listeners on a surface after two more have been registered on
    [contents]. *)
Lemma listenersOn_register s contents l1 l2 connected c :
  listenersOn
    {| privConnected := connected;
       listeners := listeners s ++ [(contents, l1); (contents, l2)];
       immediates := immediates s;
       destroyedContents := destroyedContents s |} c
  = listenersOn s c ++ (if decide (contents = c) then [l1; l2] else []).
Proof.
  unfold listenersOn. simpl. rewrite List.filter_app, fmap_app. f_equal.
  simpl. destruct (decide (contents = c)) as [->|Hne].
  - by rewrite !bool_decide_eq_true_2.
  - by rewrite !bool_decide_eq_false_2.
Qed.

Lemma bindContextMenu_boundOnce w s contents :
  (isDestroyed w contents = true ↔ webContentsId contents ∈ destroyedContents s) →
  boundOnce s → boundOnce (bindContextMenu w s contents).
Proof.
  intros Hdestroyed Hs. unfold bindContextMenu.
  destruct (isDestroyed w contents) eqn:Ealive; [done|].
  case_bool_decide as Hconnected; [done|].
  destruct (rootWebContents w contents) as [rootContents|]; [|done].
  destruct (fromWebContents w rootContents) as [browserWindow|]; [|done].
  match goal with |- boundOnce (if ?b then _ else _) => destruct b end; [done|].
  assert (Hlive : webContentsId contents ∉ destroyedContents s).
  { intros H. apply Hdestroyed in H. discriminate H. }
  destruct (Hs contents) as (_ & Hzero & _ & Hown).
  specialize (Hzero Hconnected Hlive).
  intros c. unfold contextMenuListeners. rewrite listenersOn_register.
  cbn [privConnected destroyedContents].
  destruct (decide (contents = c)) as [<-|Hne].
  - unfold contextMenuListeners in Hzero.
    rewrite List.filter_app, length_app, Hzero. simpl.
    repeat split; try lia.
    + apply elem_of_app. right. apply list_elem_of_further, list_elem_of_here.
    + intros H. exfalso. apply H, elem_of_union. left. by apply elem_of_singleton.
    + intros id' [H|H]%elem_of_app; [by apply Hown|].
      apply elem_of_cons in H as [H|H]; [done|].
      apply list_elem_of_singleton in H. by injection H.
  - rewrite app_nil_r. destruct (Hs c) as (Hone & Hzero' & Hle & Hown').
    assert (Hid : webContentsId contents ≠ webContentsId c).
    { intros H. by apply Hne, webContentsId_inj. }
    assert (Hsame : webContentsId c ∈ {[webContentsId contents]} ∪ privConnected s
                    ↔ webContentsId c ∈ privConnected s).
    { rewrite elem_of_union, elem_of_singleton.
      split; [intros [H|H]; [congruence|done] | by right]. }
    rewrite Hsame. done.
Qed.

Lemma fold_run_destroyed_listener ls : ∀ s,
  listeners (fold_left run_destroyed_listener ls s) = listeners s
  ∧ destroyedContents (fold_left run_destroyed_listener ls s) = destroyedContents s
  ∧ ∀ x, x ∈ privConnected (fold_left run_destroyed_listener ls s)
         ↔ x ∈ privConnected s ∧ on_destroyed_delete x ∉ ls.
Proof.
  induction ls as [|l ls IH]; intros s; simpl.
  - split; [done|]. split; [done|]. intros x. split; [|by intros [? _]].
    intros H. split; [done|]. apply not_elem_of_nil.
  - destruct (IH (run_destroyed_listener s l)) as (-> & -> & Hx).
    destruct l as [|id]; simpl.
    + split; [done|]. split; [done|]. intros x. rewrite Hx. simpl.
      rewrite not_elem_of_cons. split; [intros [? ?]|intros [? [_ ?]]]; done.
    + split; [done|]. split; [done|]. intros x. rewrite Hx. simpl.
      rewrite elem_of_difference, elem_of_singleton, not_elem_of_cons.
      split.
      * intros [[? ?] ?]. repeat split; [done| |done]. congruence.
      * intros [? [? ?]]. repeat split; [done| |done]. congruence.
Qed.

Lemma step_boundOnce s e : boundOnce s → boundOnce (step s e).
Proof.
  intros Hs. destruct e as [contents|window|w|contents]; simpl.
  - by apply (boundOnce_ext s).
  - by apply (boundOnce_ext s).
  - destruct (immediates s) as [|contents rest]; [done|].
    apply bindContextMenu_boundOnce.
    + simpl. apply bool_decide_eq_true.
    + by apply (boundOnce_ext s).
  - match goal with |- boundOnce (fold_left _ ?ls ?s0) =>
      destruct (fold_run_destroyed_listener ls s0) as (Hl & Hd & Hc);
      set (s' := fold_left run_destroyed_listener ls s0) in *
    end.
    simpl in Hl, Hd, Hc.
    intros c. unfold contextMenuListeners, listenersOn. rewrite Hl, Hd.
    fold (listenersOn s c). fold (contextMenuListeners s c).
    destruct (Hs c) as (Hone & Hzero & Hle & Hown).
    destruct (decide (c = contents)) as [->|Hne].
    + split.
      { intros [Hin Hnot]%Hc. exfalso. apply Hnot. by apply Hone. }
      split; [|done].
      intros _ H. exfalso. apply H, elem_of_union. left. by apply elem_of_singleton.
    + assert (Hid : webContentsId c ≠ webContentsId contents).
      { intros H. by apply Hne, webContentsId_inj. }
      assert (Hsame : webContentsId c ∈ privConnected s'
                      ↔ webContentsId c ∈ privConnected s).
      { rewrite Hc. split; [by intros [? _]|]. intros H. split; [done|].
        intros Hin. destruct (Hs contents) as (_ & _ & _ & Hown').
        by apply Hown' in Hin. }
      rewrite Hsame. split; [done|]. split; [|done].
      intros H1 H2. apply Hzero; [done|].
      intros H. apply H2, elem_of_union. by right.
Qed.

Lemma fold_step_boundOnce events : ∀ s,
  boundOnce s → boundOnce (fold_left step events s).
Proof.
  induction events as [|e events IH]; intros s Hs; simpl; [done|].
  by apply IH, step_boundOnce.
Qed.

Lemma run_boundOnce events : boundOnce (run events).
Proof. apply fold_step_boundOnce, boundOnce_initial. Qed.

Lemma emit_context_menu_length s w contents params :
  length (emit_context_menu s w contents params) = contextMenuListeners s contents.
Proof.
  unfold emit_context_menu, contextMenuListeners.
  induction (listenersOn s contents) as [|l ls IH]; [done|].
  destruct l; simpl; [f_equal|]; exact IH.
Qed.

(** Two creation events for the tab and one for the window (whose root
    surface is not suitable) bind the tab once; its destruction empties the
    bound set. *)
Example duplicate_creation_binds_once :
  let created :=
    run [ web_contents_created tabSurface;
          browser_window_created mainWindow;
          web_contents_created tabSurface;
          run_immediate exampleWorld;
          run_immediate exampleWorld;
          run_immediate exampleWorld ] in
  elements (privConnected created) = [2]
  ∧ listeners created
    = [ (tabSurface, on_context_menu_launchMenu);
        (tabSurface, on_destroyed_delete 2) ]
  ∧ elements (privConnected (step created (contents_destroyed tabSurface))) = [].
Proof. vm_compute. repeat split. Qed.

(** C8: after every sequence of creation events, deferred callbacks and
    destructions, every surface has at most one ['context-menu'] listener,
    so that a right click launches at most one menu; the deferred callback
    of a creation event for a surface whose id is in the bound set changes
    nothing, it registers no listener; and the destruction of a surface
    leaves its id outside the bound set. *)
Theorem context_menu_bound_at_most_once (events : list AppEvent) :
  let s := run events in
  (∀ contents, (contextMenuListeners s contents ≤ 1)%nat)
  ∧ (∀ w contents params, (length (emit_context_menu s w contents params) ≤ 1)%nat)
  ∧ (∀ w contents,
       webContentsId contents ∈ privConnected s → bindContextMenu w s contents = s)
  ∧ (∀ contents,
       webContentsId contents ∉ privConnected (step s (contents_destroyed contents))).
Proof.
  intros s. pose proof (run_boundOnce events) as Hs. fold s in Hs.
  split; [intros contents; apply Hs|].
  split; [intros w contents params; rewrite emit_context_menu_length; apply Hs|].
  split.
  - intros w contents Hin. unfold bindContextMenu.
    destruct (isDestroyed w contents); [done|].
    by rewrite bool_decide_eq_true_2.
  - intros contents. simpl.
    match goal with |- _ ∉ privConnected (fold_left _ ?ls ?s0) =>
      destruct (fold_run_destroyed_listener ls s0) as (_ & _ & Hc)
    end.
    rewrite Hc. simpl. intros [Hin Hnot]. apply Hnot. by apply Hs.
Qed.

(** ** Click closures of the sections *)

Lemma clicksOfTemplate_app l1 l2 :
  clicksOfTemplate (l1 ++ l2) = clicksOfTemplate l1 ++ clicksOfTemplate l2.
Proof. apply flat_map_app. Qed.

Lemma clicksOfTemplate_joinSections l :
  ∀ c, c ∈ clicksOfTemplate (joinSections l) → ∃ section, section ∈ l ∧ c ∈ clicksOfTemplate section.
Proof.
  induction l as [|section rest IH]; intros c Hc.
  - by apply elem_of_nil in Hc.
  - destruct rest as [|section' rest].
    + exists section. split; [apply list_elem_of_here|done].
    + rewrite joinSections_cons in Hc by done.
      rewrite clicksOfTemplate_app in Hc. apply elem_of_app in Hc as [Hc|Hc].
      * exists section. split; [apply list_elem_of_here|done].
      * change (clicksOfTemplate (separator :: ?r)) with (clicksOfTemplate r) in Hc.
        destruct (IH c Hc) as (s & Hs & Hcs).
        exists s. split; [by apply list_elem_of_further|done].
Qed.

Lemma clicksOf_renderSpellingSuggestionMenuItems contents suggList :
  Forall (λ c, isExtensionClick c = false)
    (clicksOfTemplate (renderSpellingSuggestionMenuItems contents suggList)).
Proof.
  unfold renderSpellingSuggestionMenuItems.
  destruct suggList as [|s0 rest]; simpl; [constructor|].
  constructor; [done|].
  induction rest as [|s rest IH]; simpl; constructor; done.
Qed.

Lemma clicksOf_submenu_Some (entries : list MenuItem) :
  flat_map (λ e, match e with Some e => clicksOf e | None => [] end) (Some <$> entries)
  = clicksOfTemplate entries.
Proof.
  induction entries as [|e entries IH]; [done|].
  rewrite fmap_cons. simpl. f_equal. exact IH.
Qed.

Lemma clicksOf_renderSpellingSection w contents params entries :
  renderSpellingSection w contents params = Some entries →
  Forall (λ c, isExtensionClick c = false) (clicksOfTemplate entries).
Proof.
  unfold renderSpellingSection. intros [= <-].
  destruct (isEditable params && truthy (misspelledWord params)); [|constructor].
  cbv zeta.
  destruct (primary _) as [p|], (secondary _) as [s|];
    try apply clicksOf_renderSpellingSuggestionMenuItems.
  unfold clicksOfTemplate. simpl. rewrite !clicksOf_submenu_Some, app_nil_r.
  apply Forall_app; split; apply clicksOf_renderSpellingSuggestionMenuItems.
Qed.

Lemma clicksOf_renderWaveboxSection w contents params entries :
  renderWaveboxSection w contents params = Some entries →
  Forall (λ c, isExtensionClick c = false) (clicksOfTemplate entries).
Proof.
  unfold renderWaveboxSection. intros [= <-]. cbv zeta.
  change (clicksOfTemplate (?e :: ?l)) with (clicksOf e ++ clicksOfTemplate l).
  apply Forall_app. split; [by repeat constructor|].
  rewrite clicksOfTemplate_app.
  apply Forall_app. split; [|by repeat constructor].
  destruct (Nat.ltb 1 (length (getInstalledDictionaries w))); [|constructor].
  unfold clicksOfTemplate. simpl. rewrite !app_nil_r.
  induction (getInstalledDictionaries w) as [|lang langs IH]; simpl; constructor; done.
Qed.

Lemma clicksOf_static_sections w contents params section entries :
  section ∈ [ renderURLSection w contents params;
              renderLookupAndSearchSection contents params;
              renderRewindSection contents params;
              renderEditingSection contents params;
              renderPageNavigationSection w contents params;
              renderPageExternalSection contents params ] →
  section = Some entries →
  Forall (λ c, isExtensionClick c = false) (clicksOfTemplate entries).
Proof.
  intros Hin ->. repeat (apply elem_of_cons in Hin as [Hin|Hin]);
    [..|by apply elem_of_nil in Hin].
  - unfold renderURLSection in Hin. injection Hin as ->.
    destruct (truthy (linkURL params)), (String.eqb (platform w) "darwin");
      repeat constructor.
  - unfold renderLookupAndSearchSection in Hin. injection Hin as ->.
    destruct (truthy (selectionText params)),
      (isEditable params && truthy (misspelledWord params)); repeat constructor.
  - unfold renderRewindSection in Hin. injection Hin as ->.
    destruct (canUndo (editFlags params) || canRedo (editFlags params));
      repeat constructor.
  - unfold renderEditingSection in Hin.
    destruct (String.eqb (mediaType params) "image"); injection Hin as ->;
      [repeat constructor|].
    destruct (canCut _), (canCopy _), (canPaste _), (canSelectAll _);
      repeat constructor.
  - unfold renderPageNavigationSection in Hin. injection Hin as ->.
    repeat constructor.
  - unfold renderPageExternalSection in Hin. injection Hin as ->.
    repeat constructor.
Qed.

(** The [click] closure of an entry rendered for a contribution, if it has
    one, selects that contribution. *)
Lemma clicksOf_renderExtensionMenuItem contents params extensionId menuItem c :
  c ∈ match renderExtensionMenuItem contents params extensionId menuItem with
      | Some item => clicksOf item
      | None => []
      end →
  c = this_extensionOptionSelected contents extensionId menuItem params.
Proof.
  unfold renderExtensionMenuItem.
  destruct (String.eqb (rt_type menuItem) ITEM_TYPES.NORMAL);
    [simpl; by intros ?%list_elem_of_singleton|].
  destruct (String.eqb (rt_type menuItem) ITEM_TYPES.CHECKBOX);
    [simpl; by intros ?%list_elem_of_singleton|].
  destruct (String.eqb (rt_type menuItem) ITEM_TYPES.RADIO);
    [simpl; by intros ?%list_elem_of_singleton|].
  destruct (String.eqb (rt_type menuItem) ITEM_TYPES.SEPERATOR);
    simpl; by intros ?%elem_of_nil.
Qed.

Lemma clicksOf_Object_assign_iconOnly data source :
  clicksOf (Object_assign (iconOnly data) source)
  = match source with Some item => clicksOf item | None => [] end.
Proof.
  destruct source as [[? ? ? ? ? ? [c|] [sub|]]|]; reflexivity.
Qed.

Lemma clicksOf_extensionEntries contents params entry c :
  c ∈ clicksOfTemplate (extensionEntries contents params entry) →
  ∃ menuItem,
    c = this_extensionOptionSelected contents entry.1 menuItem params.
Proof.
  destruct entry as [extensionId data].
  unfold extensionEntries, pushExtension.
  destruct (validContextMenusOf params (contextMenus data)) as [|m1 [|m2 rest]].
  - simpl. by intros ?%elem_of_nil.
  - unfold clicksOfTemplate. simpl.
    fold (iconOnly data). rewrite clicksOf_Object_assign_iconOnly, app_nil_r.
    intros H. exists m1. by apply clicksOf_renderExtensionMenuItem.
  - generalize (m1 :: m2 :: rest). intros valid.
    unfold clicksOfTemplate. simpl. rewrite app_nil_r.
    induction valid as [|m valid IH]; simpl; [by intros ?%elem_of_nil|].
    intros [H|H]%elem_of_app; [|by apply IH].
    exists m. by apply clicksOf_renderExtensionMenuItem.
Qed.

(** Every [click] closure of the extension section selects a contribution
    on the surface the menu was opened for. *)
Lemma clicksOf_renderExtensionSection w contents params entries c :
  renderExtensionSection w contents params = Some entries →
  c ∈ clicksOfTemplate entries →
  ∃ extensionId menuItem,
    c = this_extensionOptionSelected contents extensionId menuItem params.
Proof.
  unfold renderExtensionSection.
  destruct (fromTabId w (webContentsId contents)); intros [= <-];
    [|by intros ?%elem_of_nil].
  rewrite fold_pushExtension. simpl.
  induction (convertContextMenus (getRuntimeContextMenuData w))
    as [|entry extensions IH]; simpl; [by intros ?%elem_of_nil|].
  rewrite clicksOfTemplate_app. intros [H|H]%elem_of_app; [|by apply IH].
  destruct (clicksOf_extensionEntries _ _ _ _ H) as [menuItem ->]. eauto.
Qed.

Lemma clicksOf_sectionsOf_unrecognized w contents params section entries :
  fromTabId w (webContentsId contents) = None →
  section ∈ sectionsOf w contents params →
  section = Some entries →
  Forall (λ c, isExtensionClick c = false) (clicksOfTemplate entries).
Proof.
  intros Htab Hin Hsection. unfold sectionsOf in Hin.
  apply elem_of_cons in Hin as [Heq|Hin].
  { rewrite Heq in Hsection. by eapply clicksOf_renderSpellingSection. }
  rewrite !elem_of_cons in Hin.
  destruct Hin as [H|[H|[H|[H|[H|[H|[Hext|[Hwb|Hnil]]]]]]]];
    [ eapply (clicksOf_static_sections w contents params section); [|done];
      rewrite !elem_of_cons; auto 10 .. | | | ].
  - rewrite Hext in Hsection. unfold renderExtensionSection in Hsection.
    rewrite Htab in Hsection. injection Hsection as <-. constructor.
  - rewrite Hwb in Hsection. by eapply clicksOf_renderWaveboxSection.
  - by apply elem_of_nil in Hnil.
Qed.

Lemma nonEmptySections_elem sections entries :
  entries ∈ nonEmptySections sections → Some entries ∈ sections.
Proof.
  unfold nonEmptySections. rewrite list_elem_of_omap.
  intros (section & Hin & Hsome).
  destruct section as [[|entry rest]|]; try discriminate.
  by injection Hsome as <-.
Qed.

(** ** Selection on a destroyed surface *)

(** C6: every [click] closure of the extension section of a menu, at any
    depth, selects a contribution on the surface the menu was opened for;
    when that surface has been destroyed by the time the closure runs, it
    returns without any call and without exception, and when the surface
    is alive it makes the one forwarding call to the extension runtime. *)
Theorem extension_click_destroyed_surface
    (w w' : World) (contents : WebContents) (params : Params)
    (entries : list MenuItem) (c : Click) :
  renderExtensionSection w contents params = Some entries →
  c ∈ clicksOfTemplate entries →
  ∃ extensionId menuItem,
    c = this_extensionOptionSelected contents extensionId menuItem params
    ∧ (isDestroyed w' contents = true → run_click w' c = returns [])
    ∧ (isDestroyed w' contents = false →
       run_click w' c
       = returns [ContextMenuItemSelected extensionId contents
                    (clickParamsOf menuItem params)]).
Proof.
  intros Hsection Hc.
  destruct (clicksOf_renderExtensionSection _ _ _ _ _ Hsection Hc)
    as (extensionId & menuItem & ->).
  exists extensionId, menuItem. split; [reflexivity|].
  simpl. unfold extensionOptionSelected. split; intros ->; reflexivity.
Qed.

Lemma extension_click_destroyed_surface_witness :
  isDestroyed worldAfterDestruction tabSurface = true
  ∧ ∃ entries c,
      renderExtensionSection exampleWorld tabSurface editableParams = Some entries
      ∧ c ∈ clicksOfTemplate entries
      ∧ run_click worldAfterDestruction c = returns [].
Proof.
  split; [reflexivity|].
  eexists _, (this_extensionOptionSelected tabSurface "notes" allMenu editableParams).
  split; [reflexivity|].
  assert (Hc : this_extensionOptionSelected tabSurface "notes" allMenu editableParams
               ∈ clicksOfTemplate
                   (default [] (renderExtensionSection exampleWorld tabSurface
                                  editableParams))).
  { vm_compute. apply list_elem_of_here. }
  split; [exact Hc|].
  destruct (extension_click_destroyed_surface
              exampleWorld worldAfterDestruction tabSurface editableParams _ _
              eq_refl Hc) as (extensionId & menuItem & _ & Hdestroyed & _).
  apply Hdestroyed. reflexivity.
Defined.

(** ** Unrecognized surfaces *)

(** C10: on a surface for which [WaveboxWindow.fromTabId] finds no window
    the extension section is empty, whatever the extension runtime has
    registered, and no entry of the template assembled for that surface,
    at any depth, has a [click] closure that selects an extension
    contribution. *)
Theorem renderExtensionSection_unrecognized
    (w : World) (contents : WebContents) (params : Params) :
  fromTabId w (webContentsId contents) = None →
  renderExtensionSection w contents params = Some []
  ∧ Forall (λ c, isExtensionClick c = false)
      (clicksOfTemplate (convertSectionsToTemplate (sectionsOf w contents params))).
Proof.
  intros Htab. split.
  - unfold renderExtensionSection. by rewrite Htab.
  - rewrite convertSectionsToTemplate_join. apply Forall_forall. intros c Hc.
    apply clicksOfTemplate_joinSections in Hc as (entries & Hin & Hc).
    apply nonEmptySections_elem in Hin.
    pose proof (clicksOf_sectionsOf_unrecognized w contents params _ entries
                  Htab Hin eq_refl) as Hall.
    by apply (proj1 (Forall_forall _ _) Hall).
Qed.

Lemma renderExtensionSection_unrecognized_witness :
  fromTabId exampleWorld (webContentsId rootSurface) = None
  ∧ getRuntimeContextMenuData exampleWorld ≠ []
  ∧ renderExtensionSection exampleWorld rootSurface editableParams = Some [].
Proof.
  split; [reflexivity|]. split; [discriminate|].
  apply (renderExtensionSection_unrecognized exampleWorld rootSurface editableParams).
  reflexivity.
Defined.

(** * Further properties *)

(** ** Template assembly *)

Lemma joinSections_nil_iff l :
  Forall (λ s, s ≠ []) l → joinSections l = [] ↔ l = [].
Proof.
  intros Hne. split; [|by intros ->].
  destruct Hne as [|section rest Hs _]; [done|].
  destruct rest; destruct section; done.
Qed.

Lemma nonEmptySections_nil_iff sections :
  nonEmptySections sections = []
  ↔ Forall (λ s : SectionTemplate, s = None ∨ s = Some []) sections.
Proof.
  induction sections as [|section sections IH]; simpl.
  - split; [constructor|done].
  - destruct section as [[|entry entries]|]; simpl.
    + rewrite IH. split; [by constructor; [right|]|by inversion 1].
    + split; [done|]. inversion 1 as [|? ? [?|?] ?]; done.
    + rewrite IH. split; [by constructor; [left|]|by inversion 1].
Qed.

(** X1: the template is empty exactly when every section is empty or
    undefined. *)
Theorem convertSectionsToTemplate_empty_iff (sections : list SectionTemplate) :
  convertSectionsToTemplate sections = []
  ↔ Forall (λ s : SectionTemplate, s = None ∨ s = Some []) sections.
Proof.
  rewrite convertSectionsToTemplate_join.
  rewrite (joinSections_nil_iff _ (nonEmptySections_nonEmpty sections)).
  apply nonEmptySections_nil_iff.
Qed.

Lemma joinSections_app k1 k2 :
  k1 ≠ [] → k2 ≠ [] →
  joinSections (k1 ++ k2) = joinSections k1 ++ separator :: joinSections k2.
Proof.
  intros H1 H2. induction k1 as [|section k1 IH]; [done|].
  destruct k1 as [|section' k1].
  - simpl app. by rewrite joinSections_cons.
  - change ((section :: section' :: k1) ++ k2)
      with (section :: ((section' :: k1) ++ k2)).
    rewrite !joinSections_cons by done. rewrite IH by done.
    by rewrite <- app_assoc.
Qed.

(** X2: assembling two lists of sections one after the other gives the two
    templates with one separator between them, and just the other template
    when one of the two is empty. *)
Theorem convertSectionsToTemplate_app (s1 s2 : list SectionTemplate) :
  convertSectionsToTemplate (s1 ++ s2)
  = match convertSectionsToTemplate s1, convertSectionsToTemplate s2 with
    | [], t2 => t2
    | t1, [] => t1
    | t1, t2 => t1 ++ separator :: t2
    end.
Proof.
  rewrite !convertSectionsToTemplate_join, nonEmptySections_app.
  pose proof (nonEmptySections_nonEmpty s1) as H1.
  pose proof (nonEmptySections_nonEmpty s2) as H2.
  destruct (nonEmptySections s1) as [|a k1] eqn:E1.
  { reflexivity. }
  destruct (nonEmptySections s2) as [|b k2] eqn:E2.
  { rewrite app_nil_r. by destruct (joinSections (a :: k1)). }
  rewrite joinSections_app by done.
  destruct (joinSections (a :: k1)) eqn:Ea.
  { by apply joinSections_nil_iff in Ea. }
  destruct (joinSections (b :: k2)) eqn:Eb.
  { by apply joinSections_nil_iff in Eb. }
  reflexivity.
Qed.

Lemma noOwnSeparators_kept sections :
  noOwnSeparators sections = true →
  Forall (Forall (λ e, isSeparator e = false)) (nonEmptySections sections).
Proof.
  unfold noOwnSeparators. rewrite forallb_forall. intros H.
  induction sections as [|section sections IH]; simpl; [constructor|].
  assert (Hrest : ∀ x, In x sections → match x with
                                         | Some entries =>
                                             forallb (λ e, negb (isSeparator e)) entries
                                         | None => true
                                         end = true).
  { intros x Hx. apply H. by right. }
  specialize (H section (or_introl eq_refl)).
  destruct section as [[|entry entries]|]; simpl; auto.
  constructor; [|auto].
  rewrite forallb_forall in H. apply Forall_forall. intros e He.
  apply list_elem_of_In in He. apply H in He. by destruct (isSeparator e).
Qed.

Lemma countSeparators_none entries :
  Forall (λ e, isSeparator e = false) entries → countSeparators entries = 0.
Proof.
  unfold countSeparators. induction 1 as [|e entries He _ IH]; simpl; [done|].
  by rewrite He.
Qed.

Lemma countSeparators_concat_none l :
  Forall (Forall (λ e, isSeparator e = false)) l → countSeparators (concat l) = 0.
Proof.
  induction 1 as [|section rest Hs _ IH]; simpl; [done|].
  rewrite countSeparators_app, IH. by rewrite countSeparators_none.
Qed.

Lemma adjacentSeparators_app_none entries template :
  Forall (λ e, isSeparator e = false) entries →
  adjacentSeparators (entries ++ template) = adjacentSeparators template.
Proof.
  induction 1 as [|e entries He _ IH]; [done|].
  change ((e :: entries) ++ template) with (e :: (entries ++ template)).
  destruct (entries ++ template) as [|b rest] eqn:E.
  - apply app_eq_nil in E as [_ ->]. reflexivity.
  - simpl. rewrite He. simpl. rewrite <- IH. reflexivity.
Qed.

Lemma joinSections_adjacentSeparators l :
  Forall (λ s, s ≠ []) l →
  Forall (Forall (λ e, isSeparator e = false)) l →
  adjacentSeparators (joinSections l) = false.
Proof.
  induction 1 as [|section rest Hs Hrest IH]; [done|].
  intros Hsep. inversion Hsep as [|? ? Hsection Hsep']; subst.
  destruct rest as [|section' rest].
  - simpl. rewrite <- (app_nil_r section).
    by rewrite adjacentSeparators_app_none.
  - rewrite joinSections_cons by done.
    rewrite adjacentSeparators_app_none by done.
    pose proof (joinSections_head (section' :: rest) Hrest) as Hhead.
    inversion Hsep' as [|? ? Hsection' _]; subst.
    inversion Hrest as [|? ? Hne _]; subst.
    destruct section' as [|e section']; [done|].
    inversion Hsection' as [|? ? He _]; subst.
    destruct (joinSections ((e :: section') :: rest)) as [|b t] eqn:E.
    + reflexivity.
    + simpl in Hhead. injection Hhead as ->.
      change (adjacentSeparators (separator :: e :: t))
        with ((true && isSeparator e) || adjacentSeparators (e :: t)).
      rewrite He. simpl. by apply IH.
Qed.

Lemma head_concat_not_separator l :
  Forall (Forall (λ e, isSeparator e = false)) l →
  (isSeparator <$> head (concat l)) ≠ Some true.
Proof.
  induction 1 as [|section rest Hs _ IH]; simpl; [done|].
  destruct Hs as [|e section He _]; simpl; [exact IH|].
  rewrite He. discriminate.
Qed.

Lemma last_concat_not_separator l :
  Forall (Forall (λ e, isSeparator e = false)) l →
  (isSeparator <$> last (concat l)) ≠ Some true.
Proof.
  intros H. destruct (last (concat l)) as [e|] eqn:E; simpl; [|done].
  apply last_Some in E as [l' E].
  assert (He : e ∈ concat l) by (rewrite E; set_solver).
  apply list_elem_of_In, in_concat in He as (section & Hsection & He).
  apply list_elem_of_In in Hsection, He.
  rewrite Forall_forall in H. specialize (H _ Hsection).
  rewrite Forall_forall in H. rewrite (H _ He). discriminate.
Qed.

(** X3: when no entry of any section is itself a separator, the template of
    N sections with entries holds exactly N-1 separators, never two next to
    each other, and neither begins nor ends with one. *)
Theorem convertSectionsToTemplate_separators (sections : list SectionTemplate) :
  noOwnSeparators sections = true →
  let template := convertSectionsToTemplate sections in
  countSeparators template = length (nonEmptySections sections) - 1
  ∧ adjacentSeparators template = false
  ∧ (isSeparator <$> head template) ≠ Some true
  ∧ (isSeparator <$> last template) ≠ Some true.
Proof.
  intros Hown template. subst template.
  apply noOwnSeparators_kept in Hown.
  pose proof (nonEmptySections_nonEmpty sections) as Hne.
  rewrite convertSectionsToTemplate_join.
  split.
  { rewrite joinSections_countSeparators, countSeparators_concat_none by done. lia. }
  split; [by apply joinSections_adjacentSeparators|].
  rewrite joinSections_head, joinSections_last by done.
  split; [by apply head_concat_not_separator | by apply last_concat_not_separator].
Qed.

Lemma convertSectionsToTemplate_separators_witness :
  let sections := sectionsOf exampleWorld tabSurface editableParams in
  noOwnSeparators sections = true
  ∧ countSeparators (convertSectionsToTemplate sections) = 7.
Proof.
  split; [reflexivity|].
  destruct (convertSectionsToTemplate_separators
              (sectionsOf exampleWorld tabSurface editableParams) eq_refl)
    as [Hcount _].
  rewrite Hcount. vm_compute. reflexivity.
Defined.

Lemma elem_of_joinSections l section (e : MenuItem) :
  section ∈ l → e ∈ section → e ∈ joinSections l.
Proof.
  induction l as [|first rest IH]; [by intros ?%elem_of_nil|].
  intros Hin He. destruct rest as [|second rest].
  - apply list_elem_of_singleton in Hin as ->. exact He.
  - rewrite joinSections_cons by done. apply elem_of_app.
    apply elem_of_cons in Hin as [->|Hin]; [by left|].
    right. apply list_elem_of_further. by apply IH.
Qed.

(** Every entry of every section is in the template. *)
Lemma elem_of_convertSectionsToTemplate sections entries (e : MenuItem) :
  Some entries ∈ sections → e ∈ entries → e ∈ convertSectionsToTemplate sections.
Proof.
  intros Hin He. rewrite convertSectionsToTemplate_join.
  apply (elem_of_joinSections _ entries); [|done].
  unfold nonEmptySections. apply list_elem_of_omap.
  exists (Some entries). split; [done|].
  destruct entries; [by apply elem_of_nil in He|done].
Qed.

(** X4: a menu that is displayed is never empty: whatever was clicked, it
    holds the three navigation entries, the three page entries, the
    settings entry and the inspect entry, it ends with the inspect entry,
    and at least three of its sections have entries. *)
Theorem launchMenu_fixed_entries
    (w : World) (evt : Event) (params : Params)
    (rootContents : WebContents) (browserWindow : BrowserWindow) :
  rootWebContents w (sender evt) = Some rootContents →
  fromWebContents w rootContents = Some browserWindow →
  ∃ template,
    launchMenu w evt params
    = returns [ MenuPopup (buildFromTemplate template) browserWindow;
                SetTimeout (MenuTool_fullDestroyMenu (buildFromTemplate template)) 100 ]
    ∧ Forall (λ l, Some l ∈ map label template)
        [ "Go Back"; "Go Forward"; "Reload"; "Copy current URL";
          "Open page in Browser"; "Open page with Wavebox";
          "Wavebox Settings"; "Inspect" ]
    ∧ (last template ≫= label) = Some "Inspect"
    ∧ (3 ≤ length (nonEmptySections (sectionsOf w (sender evt) params)))%nat.
Proof.
  intros Hroot Hwindow. eexists. split.
  { unfold launchMenu. rewrite Hroot, Hwindow. reflexivity. }
  set (contents := sender evt).
  assert (Hin : ∀ section entries e l,
            section ∈ [ renderPageNavigationSection w contents params;
                        renderPageExternalSection contents params;
                        renderWaveboxSection w contents params ] →
            section = Some entries → e ∈ entries → label e = Some l →
            Some l ∈ map label
                       (convertSectionsToTemplate (sectionsOf w contents params))).
  { intros section entries e l Hs -> He <-. apply list_elem_of_fmap. exists e.
    split; [done|]. apply (elem_of_convertSectionsToTemplate _ entries); [|done].
    unfold sectionsOf. rewrite !elem_of_cons in Hs. rewrite !elem_of_cons.
    destruct Hs as [<-|[<-|[<-|Hnil]]];
      solve [ auto 12 | by apply elem_of_nil in Hnil ]. }
  split.
  { repeat constructor.
    - eapply (Hin (renderPageNavigationSection w contents params));
        [set_solver|reflexivity|apply list_elem_of_here|reflexivity].
    - eapply (Hin (renderPageNavigationSection w contents params));
        [set_solver|reflexivity|
         apply list_elem_of_further, list_elem_of_here|reflexivity].
    - eapply (Hin (renderPageNavigationSection w contents params));
        [set_solver|reflexivity|
         do 2 apply list_elem_of_further; apply list_elem_of_here|reflexivity].
    - eapply (Hin (renderPageExternalSection contents params));
        [set_solver|reflexivity|apply list_elem_of_here|reflexivity].
    - eapply (Hin (renderPageExternalSection contents params));
        [set_solver|reflexivity|
         apply list_elem_of_further, list_elem_of_here|reflexivity].
    - eapply (Hin (renderPageExternalSection contents params));
        [set_solver|reflexivity|
         do 2 apply list_elem_of_further; apply list_elem_of_here|reflexivity].
    - eapply (Hin (renderWaveboxSection w contents params));
        [set_solver|reflexivity|apply list_elem_of_here|reflexivity].
    - eapply (Hin (renderWaveboxSection w contents params));
        [set_solver|reflexivity|
         rewrite !elem_of_app; right; right; apply list_elem_of_here|reflexivity]. }
  unfold sectionsOf.
  change [?a; ?b; ?c; ?d; ?e; ?f; ?g; ?h; ?i] with ([a; b; c; d; e] ++ [f; g; h; i]).
  split.
  - rewrite convertSectionsToTemplate_join, joinSections_last
      by apply nonEmptySections_nonEmpty.
    rewrite nonEmptySections_app.
    change [?f; ?g; ?h; ?i] with ([f; g; h] ++ [i]).
    rewrite nonEmptySections_app, !concat_app, !last_app.
    unfold renderWaveboxSection. cbv zeta. simpl nonEmptySections. simpl concat.
    by rewrite app_nil_r, last_cons, last_snoc.
  - rewrite nonEmptySections_app, length_app.
    change [?f; ?g; ?h; ?i] with ([f; g] ++ [h] ++ [i]).
    rewrite !nonEmptySections_app, !length_app. simpl. lia.
Qed.

Lemma launchMenu_fixed_entries_witness :
  rootWebContents exampleWorld tabSurface = Some rootSurface
  ∧ fromWebContents exampleWorld rootSurface = Some mainWindow
  ∧ ∃ template,
      launchMenu exampleWorld {| sender := tabSurface |} pageParams
      = returns [ MenuPopup (buildFromTemplate template) mainWindow;
                  SetTimeout (MenuTool_fullDestroyMenu (buildFromTemplate template))
                    100 ]
      ∧ (last template ≫= label) = Some "Inspect".
Proof.
  split; [reflexivity|]. split; [reflexivity|].
  destruct (launchMenu_fixed_entries
              exampleWorld {| sender := tabSurface |} pageParams
              rootSurface mainWindow eq_refl eq_refl)
    as (template & H1 & _ & H2 & _).
  exists template. split; assumption.
Defined.

(** ** The surface a menu acts on *)






(** ** Exceptions of the click closures *)


(** ** Extension section: size and routing *)




Lemma clicksOf_extensionEntries_valid contents params entry c :
  c ∈ clicksOfTemplate (extensionEntries contents params entry) →
  ∃ menuItem,
    menuItem ∈ validContextMenusOf params (contextMenus entry.2)
    ∧ c = this_extensionOptionSelected contents entry.1 menuItem params.
Proof.
  destruct entry as [extensionId data].
  unfold extensionEntries, pushExtension. simpl.
  destruct (validContextMenusOf params (contextMenus data)) as [|m1 [|m2 rest]].
  - simpl. by intros ?%elem_of_nil.
  - unfold clicksOfTemplate. simpl.
    fold (iconOnly data). rewrite clicksOf_Object_assign_iconOnly, app_nil_r.
    intros H. exists m1. split; [apply list_elem_of_here|].
    by apply clicksOf_renderExtensionMenuItem.
  - generalize (m1 :: m2 :: rest). intros valid.
    unfold clicksOfTemplate. simpl. rewrite app_nil_r.
    induction valid as [|m valid IH]; simpl; [by intros ?%elem_of_nil|].
    intros [H|H]%elem_of_app.
    + exists m. split; [apply list_elem_of_here|].
      by apply clicksOf_renderExtensionMenuItem.
    + destruct (IH H) as (m' & Hm' & ->).
      exists m'. split; [by apply list_elem_of_further|done].
Qed.

(** X9: a selection is reported for a registered contribution, to the
    extension that registered it: every [click] closure of the extension
    section, at any depth, selects the instance made from a
    [[menuId, menuData]] pair of the runtime data, under the key of the
    extension that holds the pair, and that instance passes the filter; on
    a live surface the call names that extension and carries that menu id. *)
Theorem extension_click_routing
    (w w' : World) (contents : WebContents) (params : Params)
    (entries : list MenuItem) (c : Click) :
  renderExtensionSection w contents params = Some entries →
  c ∈ clicksOfTemplate entries →
  ∃ extensionId data menuId menuData,
    (extensionId, data) ∈ getRuntimeContextMenuData w
    ∧ (menuId, menuData) ∈ contextMenus data
    ∧ filter_keeps
        (contextMenuFilter params
           (new_CRExtensionRTContextMenu extensionId menuId menuData)) = true
    ∧ c = this_extensionOptionSelected contents extensionId
            (new_CRExtensionRTContextMenu extensionId menuId menuData) params
    ∧ (isDestroyed w' contents = false →
       ∃ clickParams,
         run_click w' c
         = returns [ContextMenuItemSelected extensionId contents clickParams]
         ∧ cp_menuItemId clickParams = menuId).
Proof.
  unfold renderExtensionSection.
  destruct (fromTabId w (webContentsId contents)); intros [= <-];
    [|by intros ?%elem_of_nil].
  rewrite fold_pushExtension. simpl. intros Hc.
  assert (∃ entry, entry ∈ convertContextMenus (getRuntimeContextMenuData w)
                   ∧ c ∈ clicksOfTemplate (extensionEntries contents params entry))
    as (entry & Hentry & Hc').
  { revert Hc. generalize (convertContextMenus (getRuntimeContextMenuData w)).
    intros extensions. induction extensions as [|entry extensions IH]; simpl;
      [by intros ?%elem_of_nil|].
    rewrite clicksOfTemplate_app. intros [H|H]%elem_of_app.
    - exists entry. split; [apply list_elem_of_here|done].
    - destruct (IH H) as (entry' & ? & ?).
      exists entry'. split; [by apply list_elem_of_further|done]. }
  apply clicksOf_extensionEntries_valid in Hc' as (menuItem & Hvalid & ->).
  unfold convertContextMenus in Hentry.
  apply list_elem_of_fmap in Hentry as ([extensionId data] & -> & Hraw).
  simpl in Hvalid. unfold validContextMenusOf in Hvalid.
  apply list_elem_of_In, filter_In in Hvalid as [Hin Hkeeps].
  apply list_elem_of_In, list_elem_of_fmap in Hin as ([menuId menuData] & -> & Hpair).
  exists extensionId, data, menuId, menuData.
  split; [done|]. split; [done|]. split; [done|]. split; [reflexivity|].
  intros Halive. eexists. simpl. unfold extensionOptionSelected.
  rewrite Halive. split; reflexivity.
Qed.

Lemma extension_click_routing_witness :
  ∃ entries c,
    renderExtensionSection exampleWorld tabSurface editableParams = Some entries
    ∧ c ∈ clicksOfTemplate entries
    ∧ ∃ extensionId data menuId menuData,
        (extensionId, data) ∈ getRuntimeContextMenuData exampleWorld
        ∧ (menuId, menuData) ∈ contextMenus data
        ∧ c = this_extensionOptionSelected tabSurface extensionId
                (new_CRExtensionRTContextMenu extensionId menuId menuData)
                editableParams.
Proof.
  eexists _, (this_extensionOptionSelected tabSurface "notes" allMenu editableParams).
  split; [reflexivity|].
  assert (Hc : this_extensionOptionSelected tabSurface "notes" allMenu editableParams
               ∈ clicksOfTemplate
                   (default [] (renderExtensionSection exampleWorld tabSurface
                                  editableParams))).
  { vm_compute. apply list_elem_of_here. }
  split; [exact Hc|].
  destruct (extension_click_routing
              exampleWorld exampleWorld tabSurface editableParams _ _ eq_refl Hc)
    as (extensionId & data & menuId & menuData & H1 & H2 & _ & H3 & _).
  exists extensionId, data, menuId, menuData. repeat split; assumption.
Defined.

(** ** The filter of the contributions *)

Lemma validContextMenusOf_sublist params contextMenus :
  sublist (validContextMenusOf params contextMenus) contextMenus.
Proof.
  unfold validContextMenusOf.
  induction contextMenus as [|m ms IH]; simpl; [constructor|].
  destruct (filter_keeps (contextMenuFilter params m)); by constructor.
Qed.

(** X10: the filter keeps the contributions in their order and keeps
    exactly those whose contexts hold [all] and, when the click target is
    editable, those whose contexts hold [editable]; whatever passes on a
    target that is not editable passes on every target. *)
Theorem validContextMenusOf_spec
    (params params' : Params) (contextMenus : list CRExtensionRTContextMenu) :
  isEditable params = false →
  sublist (validContextMenusOf params' contextMenus) contextMenus
  ∧ (∀ menu,
       menu ∈ validContextMenusOf params' contextMenus
       ↔ menu ∈ contextMenus
         ∧ (CONTEXT_TYPES.ALL ∈ rt_contexts menu
            ∨ (isEditable params' = true ∧ CONTEXT_TYPES.EDITABLE ∈ rt_contexts menu)))
  ∧ sublist (validContextMenusOf params contextMenus)
      (validContextMenusOf params' contextMenus).
Proof.
  intros Hplain. split; [apply validContextMenusOf_sublist|]. split.
  - intros menu. unfold validContextMenusOf.
    rewrite list_elem_of_In, filter_In, <- list_elem_of_In.
    by rewrite contextMenuFilter_keeps.
  - unfold validContextMenusOf.
    induction contextMenus as [|m ms IH]; simpl; [constructor|].
    destruct (filter_keeps (contextMenuFilter params m)) eqn:E.
    + apply contextMenuFilter_keeps in E as [Hall|[Hed _]]; [|congruence].
      assert (E' : filter_keeps (contextMenuFilter params' m) = true).
      { apply contextMenuFilter_keeps. by left. }
      rewrite E'. by constructor.
    + destruct (filter_keeps (contextMenuFilter params' m)); [|exact IH].
      by constructor.
Qed.

Lemma validContextMenusOf_spec_witness :
  isEditable pageParams = false
  ∧ sublist (validContextMenusOf pageParams [checkboxMenu; pageOnlyMenu; allMenu])
      (validContextMenusOf editableParams [checkboxMenu; pageOnlyMenu; allMenu]).
Proof.
  split; [reflexivity|].
  apply (validContextMenusOf_spec pageParams editableParams
           [checkboxMenu; pageOnlyMenu; allMenu]).
  reflexivity.
Defined.

(** ** The payload of a selection *)

(** X11: the payload of a selection never carries the media type ['none'],
    it carries the media type of the click otherwise; it has [checked]
    exactly when it has [wasChecked], and [checked] is then the negation of
    [wasChecked]. *)
Theorem clickParamsOf_normalised (menuItem : CRExtensionRTContextMenu) (params : Params) :
  let clickParams := clickParamsOf menuItem params in
  cp_mediaType clickParams ≠ Some "none"
  ∧ (mediaType params ≠ "none" → cp_mediaType clickParams = Some (mediaType params))
  ∧ cp_checked clickParams = negb <$> cp_wasChecked clickParams.
Proof.
  unfold clickParamsOf. cbv zeta. simpl.
  destruct (String.eqb_spec (mediaType params) "none") as [E|E].
  - split; [done|]. split; [done|].
    by destruct (_ || _).
  - split; [congruence|]. split; [done|].
    by destruct (_ || _).
Qed.

(** ** Binding: further invariants *)

(** The deferred callback either changes nothing or binds the surface, and
    it binds exactly a live, unbound, suitable surface. *)
Lemma bindContextMenu_cases w s contents :
  bindContextMenu w s contents
  = if negb (isDestroyed w contents)
       && negb (bool_decide (webContentsId contents ∈ privConnected s))
       && suitable w contents
    then boundState s contents else s.
Proof.
  unfold bindContextMenu, suitable, boundState.
  destruct (isDestroyed w contents); [done|].
  destruct (bool_decide (webContentsId contents ∈ privConnected s)); [done|].
  destruct (rootWebContents w contents) as [rootContents|]; [|done].
  destruct (fromWebContents w rootContents) as [browserWindow|]; [|done].
  destruct (fromBrowserWindow w browserWindow) as [waveboxWindow|]; [|done].
  simpl. by destruct (negb _ && _).
Qed.

Lemma fold_run_destroyed_listener_immediates ls : ∀ s,
  immediates (fold_left run_destroyed_listener ls s) = immediates s.
Proof.
  induction ls as [|l ls IH]; intros s; simpl; [done|].
  rewrite IH. by destruct l.
Qed.

Lemma run_snoc events e : run (events ++ [e]) = step (run events) e.
Proof. unfold run. by rewrite fold_left_app. Qed.

Lemma suitable_worldOf s w contents :
  suitable (worldOf s w) contents = suitable w contents.
Proof. reflexivity. Qed.

(** The bound set holds no destroyed surface. *)
Lemma run_bound_live events :
  ∀ id, id ∈ privConnected (run events) → id ∉ destroyedContents (run events).
Proof.
  induction events as [|e events IH] using rev_ind.
  { intros id H. by apply elem_of_empty in H. }
  rewrite run_snoc. pose proof (run_boundOnce events) as Hs.
  set (s := run events) in *.
  destruct e as [contents|window|w|contents]; simpl; try exact IH.
  - destruct (immediates s) as [|contents rest]; [exact IH|].
    rewrite bindContextMenu_cases. simpl.
    case_bool_decide as Hdestroyed; simpl; [exact IH|].
    destruct (negb _ && _); [|exact IH].
    simpl. intros id [Hid|Hid]%elem_of_union; [|by apply IH].
    apply elem_of_singleton in Hid. by subst id.
  - match goal with |- ∀ id, id ∈ privConnected (fold_left _ ?ls ?s0) → _ =>
      destruct (fold_run_destroyed_listener ls s0) as (_ & -> & Hc)
    end.
    simpl. intros id [Hin Hnot]%Hc. simpl in Hin.
    intros [Hid|Hid]%elem_of_union; [|by apply (IH id)].
    apply elem_of_singleton in Hid. subst id.
    apply Hnot. by apply Hs.
Qed.

(** X12: after every sequence of events the bound set holds no surface
    that has been destroyed. *)
Theorem bound_set_holds_no_destroyed_surface (events : list AppEvent) :
  privConnected (run events) ∩ destroyedContents (run events) = ∅.
Proof.
  apply elem_of_equiv_empty_L. intros id [Hbound Hdestroyed]%elem_of_intersection.
  by apply (run_bound_live events id).
Qed.

Lemma emit_context_menu_replicate s w contents params :
  emit_context_menu s w contents params
  = replicate (contextMenuListeners s contents)
      (launchMenu w {| sender := contents |} params).
Proof.
  unfold emit_context_menu, contextMenuListeners.
  induction (listenersOn s contents) as [|l ls IH]; [done|].
  destruct l; simpl; [f_equal|]; exact IH.
Qed.

(** X13: a right click on a surface whose id is in the bound set launches
    the menu exactly once. *)
Theorem right_click_launches_once
    (events : list AppEvent) (w : World) (contents : WebContents) (params : Params) :
  webContentsId contents ∈ privConnected (run events) →
  emit_context_menu (run events) w contents params
  = [launchMenu w {| sender := contents |} params].
Proof.
  intros Hbound. rewrite emit_context_menu_replicate.
  destruct (run_boundOnce events contents) as (Hone & _).
  destruct (Hone Hbound) as [-> _]. reflexivity.
Qed.

Lemma right_click_launches_once_witness :
  let events := [ web_contents_created tabSurface;
                  web_contents_created tabSurface;
                  run_immediate exampleWorld;
                  run_immediate exampleWorld ] in
  webContentsId tabSurface ∈ privConnected (run events)
  ∧ emit_context_menu (run events) exampleWorld tabSurface pageParams
    = [launchMenu exampleWorld {| sender := tabSurface |} pageParams].
Proof.
  assert (H : webContentsId tabSurface
              ∈ privConnected (run [ web_contents_created tabSurface;
                                     web_contents_created tabSurface;
                                     run_immediate exampleWorld;
                                     run_immediate exampleWorld ])).
  { apply (bool_decide_unpack _). vm_compute. exact I. }
  split; [exact H|].
  exact (right_click_launches_once _ exampleWorld tabSurface pageParams H).
Defined.

Lemma announced_snoc events e contents :
  announced events contents → announced (events ++ [e]) contents.
Proof.
  intros [H|(window & H & Hw)]; [left|right; exists window; split; [|done]];
    apply elem_of_app; by left.
Qed.

Lemma run_announced events :
  (∀ contents, contents ∈ immediates (run events) → announced events contents)
  ∧ (∀ id, id ∈ privConnected (run events) →
           announced events {| webContentsId := id |}).
Proof.
  induction events as [|e events [IHq IHb]] using rev_ind.
  { split; [by intros ? ?%elem_of_nil|by intros ? ?%elem_of_empty]. }
  rewrite run_snoc. set (s := run events) in *.
  assert (IHq' : ∀ contents, contents ∈ immediates s →
                             announced (events ++ [e]) contents).
  { intros contents H. by apply announced_snoc, IHq. }
  assert (IHb' : ∀ id, id ∈ privConnected s →
                       announced (events ++ [e]) {| webContentsId := id |}).
  { intros id H. by apply announced_snoc, IHb. }
  destruct e as [contents|window|w|contents]; simpl.
  - split; [|exact IHb'].
    intros c [H|H]%elem_of_app; [by apply IHq'|].
    apply list_elem_of_singleton in H as ->. left. apply elem_of_app. right.
    apply list_elem_of_here.
  - split; [|exact IHb'].
    intros c [H|H]%elem_of_app; [by apply IHq'|].
    apply list_elem_of_singleton in H as ->. right. exists window.
    split; [|done]. apply elem_of_app. right. apply list_elem_of_here.
  - destruct (immediates s) as [|contents rest] eqn:Eq.
    { split; [|exact IHb']. intros c Hc. apply IHq'. by rewrite Eq in Hc. }
    assert (Hrest : ∀ c, c ∈ rest → announced (events ++ [run_immediate w]) c).
    { intros c H. apply IHq'. by apply list_elem_of_further. }
    rewrite bindContextMenu_cases.
    destruct (negb _ && _ && _); simpl; [|by split].
    split; [exact Hrest|].
    intros id [Hid|Hid]%elem_of_union; [|by apply IHb'].
    apply elem_of_singleton in Hid. subst id.
    replace {| webContentsId := webContentsId contents |} with contents
      by (by destruct contents).
    apply IHq'. apply list_elem_of_here.
  - match goal with |- context [fold_left _ ?ls ?s0] =>
      destruct (fold_run_destroyed_listener ls s0) as (_ & _ & Hc);
      rewrite (fold_run_destroyed_listener_immediates ls s0)
    end.
    split; [exact IHq'|].
    intros id [Hin _]%Hc. by apply IHb'.
Qed.

(** X14: the service binds no surface it was not told about: every id in
    the bound set is the id of a surface for which a creation event (of the
    surface, or of a browser window that holds it) has occurred. *)
Theorem bound_surfaces_were_announced (events : list AppEvent) (id : nat) :
  id ∈ privConnected (run events) →
  announced events {| webContentsId := id |}.
Proof. apply run_announced. Qed.

Lemma bound_surfaces_were_announced_witness :
  let events := [ browser_window_created tabWindow; run_immediate exampleWorld ] in
  2 ∈ privConnected (run events)
  ∧ announced events {| webContentsId := 2 |}.
Proof.
  assert (H : 2 ∈ privConnected (run [ browser_window_created tabWindow;
                                       run_immediate exampleWorld ])).
  { apply (bool_decide_unpack _). vm_compute. exact I. }
  split; [exact H|].
  exact (bound_surfaces_were_announced _ 2 H).
Defined.

Lemma listenersOn_ext s s' contents :
  listeners s = listeners s' → listenersOn s contents = listenersOn s' contents.
Proof. unfold listenersOn. by intros ->. Qed.

Lemma neverSuitable_snoc events e contents :
  neverSuitable (events ++ [e]) contents = true →
  neverSuitable events contents = true
  ∧ match e with
    | run_immediate w => suitable w contents = false
    | _ => True
    end.
Proof.
  unfold neverSuitable. rewrite forallb_app. simpl.
  intros [H1 H2]%andb_true_iff. split; [done|].
  destruct e; try done. by destruct (suitable w contents).
Qed.

(** X15: a surface that is not suitable whenever a deferred callback runs
    (it has no root surface, its root surface is in no browser window, or
    it is the root surface of a Wavebox window without a context menu of
    its own) is never bound: its id stays outside the bound set and no
    listener is registered on it. *)
Theorem unsuitable_surface_never_bound
    (events : list AppEvent) (contents : WebContents) :
  neverSuitable events contents = true →
  (webContentsId contents ∉ privConnected (run events))
  ∧ listenersOn (run events) contents = [].
Proof.
  induction events as [|e events IH] using rev_ind.
  { intros _. split; [apply not_elem_of_empty|done]. }
  intros [Hnever He]%neverSuitable_snoc. destruct (IH Hnever) as [Hunbound Hnone].
  rewrite run_snoc. set (s := run events) in *.
  destruct e as [c|window|w|c]; simpl.
  - by split.
  - by split.
  - destruct (immediates s) as [|c rest]; [by split|].
    rewrite bindContextMenu_cases.
    destruct (decide (c = contents)) as [->|Hne].
    + rewrite suitable_worldOf, He, andb_false_r. by split.
    + destruct (negb _ && _ && _); [|by split].
      unfold boundState. rewrite listenersOn_register.
      rewrite decide_False by done. simpl. split.
      * intros [Hid|Hid]%elem_of_union; [|done].
        apply elem_of_singleton in Hid. by apply Hne, webContentsId_inj.
      * by rewrite app_nil_r.
  - match goal with |- context [fold_left _ ?ls ?s0] =>
      destruct (fold_run_destroyed_listener ls s0) as (Hl & _ & Hc)
    end.
    split.
    + intros [Hin _]%Hc. by apply Hunbound.
    + rewrite (listenersOn_ext _ s contents); [done|]. by rewrite Hl.
Qed.

Lemma unsuitable_surface_never_bound_witness :
  let events := [ web_contents_created rootSurface;
                  browser_window_created mainWindow;
                  run_immediate exampleWorld;
                  run_immediate exampleWorld ] in
  neverSuitable events rootSurface = true
  ∧ listenersOn (run events) rootSurface = [].
Proof.
  split; [reflexivity|].
  apply (unsuitable_surface_never_bound
           [ web_contents_created rootSurface;
             browser_window_created mainWindow;
             run_immediate exampleWorld;
             run_immediate exampleWorld ] rootSurface).
  reflexivity.
Defined.

Lemma step_run_immediate_binds s w contents rest :
  immediates s = contents :: rest →
  webContentsId contents ∉ privConnected s →
  webContentsId contents ∉ destroyedContents s →
  suitable w contents = true →
  step s (run_immediate w)
  = boundState
      {| privConnected := privConnected s; listeners := listeners s;
         immediates := rest; destroyedContents := destroyedContents s |}
      contents.
Proof.
  intros Hq Hunbound Hlive Hsuitable. unfold step. rewrite Hq.
  rewrite bindContextMenu_cases, suitable_worldOf, Hsuitable.
  change (isDestroyed (worldOf s w) contents)
    with (bool_decide (webContentsId contents ∈ destroyedContents s)).
  cbn [privConnected].
  by rewrite !bool_decide_eq_false_2 by done.
Qed.

Lemma contextMenuListeners_boundState s contents :
  contextMenuListeners (boundState s contents) contents
  = S (contextMenuListeners s contents).
Proof.
  unfold contextMenuListeners, boundState.
  rewrite listenersOn_register, decide_True by done.
  rewrite List.filter_app, length_app. simpl. lia.
Qed.

(** X16: a creation event of a browser window binds the surface of the
    window when an earlier attempt did not: if no deferred callback is
    pending and the surface is alive and not yet bound, then after the
    creation event of a window that holds it and the deferred callback of
    that event, run in a world in which the surface is suitable, the id of
    the surface is in the bound set, the surface has exactly one
    ['context-menu'] listener and no callback is pending. *)
Theorem window_creation_binds
    (events : list AppEvent) (w : World) (window : BrowserWindow) :
  immediates (run events) = [] →
  webContentsId (webContents window) ∉ privConnected (run events) →
  webContentsId (webContents window) ∉ destroyedContents (run events) →
  suitable w (webContents window) = true →
  let s' := run (events ++ [browser_window_created window; run_immediate w]) in
  webContentsId (webContents window) ∈ privConnected s'
  ∧ contextMenuListeners s' (webContents window) = 1
  ∧ immediates s' = [].
Proof.
  intros Hq Hunbound Hlive Hsuitable s'. subst s'.
  unfold run. rewrite fold_left_app. fold (run events).
  pose proof (run_boundOnce events (webContents window)) as (_ & Hzero & _).
  specialize (Hzero Hunbound Hlive).
  set (s := run events) in *.
  change (fold_left step [browser_window_created window; run_immediate w] s)
    with (step (_handleWebContentsCreated s (webContents window)) (run_immediate w)).
  rewrite (step_run_immediate_binds _ w (webContents window) [])
    by (simpl; rewrite ?Hq; done).
  split; [apply elem_of_union; left; by apply elem_of_singleton|].
  split; [|done].
  rewrite contextMenuListeners_boundState.
  unfold contextMenuListeners in *.
  rewrite (listenersOn_ext _ s) by done. by rewrite Hzero.
Qed.

Lemma window_creation_binds_witness :
  let events := [ web_contents_created tabSurface; run_immediate detachedWorld ] in
  immediates (run events) = []
  ∧ elements (privConnected (run events)) = []
  ∧ suitable exampleWorld (webContents tabWindow) = true
  ∧ contextMenuListeners
      (run (events ++ [browser_window_created tabWindow; run_immediate exampleWorld]))
      (webContents tabWindow) = 1.
Proof.
  split; [reflexivity|]. split; [vm_compute; reflexivity|]. split; [reflexivity|].
  assert (H1 : webContentsId (webContents tabWindow)
               ∉ privConnected (run [ web_contents_created tabSurface;
                                      run_immediate detachedWorld ])).
  { intros H. apply (bool_decide_pack _) in H. vm_compute in H. exact H. }
  assert (H2 : webContentsId (webContents tabWindow)
               ∉ destroyedContents (run [ web_contents_created tabSurface;
                                          run_immediate detachedWorld ])).
  { intros H. apply (bool_decide_pack _) in H. vm_compute in H. exact H. }
  apply (window_creation_binds
           [ web_contents_created tabSurface; run_immediate detachedWorld ]
           exampleWorld tabWindow eq_refl H1 H2 eq_refl).
Defined.

(** A destroyed surface stays destroyed. *)
Lemma step_destroyed_mono s e id :
  id ∈ destroyedContents s → id ∈ destroyedContents (step s e).
Proof.
  intros H. destruct e as [c|window|w|c]; simpl; try done.
  - destruct (immediates s) as [|c rest]; [done|].
    rewrite bindContextMenu_cases. by destruct (negb _ && _ && _).
  - match goal with |- context [fold_left _ ?ls ?s0] =>
      destruct (fold_run_destroyed_listener ls s0) as (_ & -> & _)
    end.
    simpl. apply elem_of_union. by right.
Qed.

Lemma fold_step_destroyed_mono events : ∀ s id,
  id ∈ destroyedContents s → id ∈ destroyedContents (fold_left step events s).
Proof.
  induction events as [|e events IH]; intros s id H; simpl; [done|].
  by apply IH, step_destroyed_mono.
Qed.

(** X17: a surface that has been destroyed is never bound again: whatever
    events follow its destruction, creation events for it included, its id
    is in the set of destroyed surfaces and not in the bound set. *)
Theorem destroyed_surface_stays_unbound
    (before after : list AppEvent) (contents : WebContents) :
  let s := run (before ++ contents_destroyed contents :: after) in
  webContentsId contents ∈ destroyedContents s
  ∧ privConnected s ∩ {[webContentsId contents]} = ∅.
Proof.
  intros s.
  assert (Hdestroyed : webContentsId contents ∈ destroyedContents s).
  { subst s. unfold run. rewrite fold_left_app. simpl fold_left at 1.
    apply fold_step_destroyed_mono.
    match goal with |- context [fold_left run_destroyed_listener ?ls ?s0] =>
      destruct (fold_run_destroyed_listener ls s0) as (_ & -> & _)
    end.
    simpl. apply elem_of_union. left. by apply elem_of_singleton. }
  split; [exact Hdestroyed|].
  apply elem_of_equiv_empty_L. intros id [Hbound Hid]%elem_of_intersection.
  apply elem_of_singleton in Hid. subst id.
  by apply (run_bound_live _ _ Hbound).
Qed.

(** ** Spelling and dictionaries *)

Lemma renderSpellingSuggestionMenuItems_nonEmpty contents suggList :
  renderSpellingSuggestionMenuItems contents suggList ≠ [].
Proof.
  unfold renderSpellingSuggestionMenuItems. by destruct suggList.
Qed.

Lemma clicksOf_renderSpellingSuggestionMenuItems_elem contents suggList c :
  c ∈ clicksOfTemplate (renderSpellingSuggestionMenuItems contents suggList) →
  ∃ suggestion,
    suggestion ∈ suggList ∧ c = contents_replaceMisspelling contents suggestion.
Proof.
  unfold renderSpellingSuggestionMenuItems.
  destruct (negb (Nat.eqb (length suggList) 0)); [|by intros ?%elem_of_nil].
  unfold clicksOfTemplate.
  induction suggList as [|s rest IH]; simpl; [by intros ?%elem_of_nil|].
  intros [->|H]%elem_of_cons.
  - exists s. split; [apply list_elem_of_here|done].
  - destruct (IH H) as (s' & Hs' & ->).
    exists s'. split; [by apply list_elem_of_further|done].
Qed.

(** X18: the spelling section is shown exactly for a misspelled word in an
    editable field; it is then never empty and none of its entries has an
    empty submenu (an entry without suggestions says so instead); and every
    [click] closure of the section, at any depth, replaces the misspelling
    on the sender by a suggestion that the spellchecker returned for the
    misspelled word. *)
Theorem renderSpellingSection_suggestions
    (w w' : World) (contents : WebContents) (params : Params) :
  ∃ entries,
    renderSpellingSection w contents params = Some entries
    ∧ (entries = [] ↔ isEditable params && truthy (misspelledWord params) = false)
    ∧ Forall (λ e, submenu e ≠ Some []) entries
    ∧ Forall
        (λ c,
           ∃ dictionary suggestion,
             (primary (spellSuggestionsSync w (misspelledWord params)) = Some dictionary
              ∨ secondary (spellSuggestionsSync w (misspelledWord params))
                = Some dictionary)
             ∧ suggestion ∈ suggestions dictionary
             ∧ c = contents_replaceMisspelling contents suggestion
             ∧ run_click w' c = returns [ReplaceMisspelling contents suggestion])
        (clicksOfTemplate entries).
Proof.
  unfold renderSpellingSection. eexists. split; [reflexivity|].
  destruct (isEditable params && truthy (misspelledWord params)).
  2: { split; [done|]. split; constructor. }
  cbv zeta.
  set (result := spellSuggestionsSync w (misspelledWord params)).
  assert (Hitems : ∀ dictionary,
            (primary result = Some dictionary ∨ secondary result = Some dictionary) →
            Forall
              (λ c, ∃ dictionary suggestion,
                 (primary result = Some dictionary
                  ∨ secondary result = Some dictionary)
                 ∧ suggestion ∈ suggestions dictionary
                 ∧ c = contents_replaceMisspelling contents suggestion
                 ∧ run_click w' c = returns [ReplaceMisspelling contents suggestion])
              (clicksOfTemplate
                 (renderSpellingSuggestionMenuItems contents (suggestions dictionary)))).
  { intros dictionary Hd. apply Forall_forall. intros c Hc.
    apply clicksOf_renderSpellingSuggestionMenuItems_elem in Hc as (s & Hs & ->).
    exists dictionary, s. by repeat split. }
  assert (Hnoempty : ∀ suggList,
            Forall (λ e, submenu e ≠ Some [])
              (renderSpellingSuggestionMenuItems contents suggList)).
  { intros suggList. unfold renderSpellingSuggestionMenuItems.
    destruct (negb _); [|by repeat constructor].
    induction suggList; simpl; by constructor. }
  destruct (primary result) as [p|] eqn:Ep, (secondary result) as [s|] eqn:Es.
  - split; [done|]. split.
    + repeat constructor; simpl; intros [= H]; apply fmap_nil_inv in H;
        by apply renderSpellingSuggestionMenuItems_nonEmpty in H.
    + unfold clicksOfTemplate. simpl. rewrite !clicksOf_submenu_Some, app_nil_r.
      apply Forall_app. split; apply Hitems; auto.
  - split; [|split; [apply Hnoempty|apply Hitems; auto]].
    split; [|done]. intros H. by apply renderSpellingSuggestionMenuItems_nonEmpty in H.
  - split; [|split; [apply Hnoempty|apply Hitems; auto]].
    split; [|done]. intros H. by apply renderSpellingSuggestionMenuItems_nonEmpty in H.
  - split; [|split; [apply Hnoempty|]].
    + split; [|done]. intros H.
      by apply renderSpellingSuggestionMenuItems_nonEmpty in H.
    + simpl. constructor.
Qed.





(** The Wavebox section of the examples: two dictionaries, the first of
    which is the primary language. *)
Example renderWaveboxSection_on_tab :
  map outline (default [] (renderWaveboxSection exampleWorld tabSurface pageParams))
  = [ (Some "Wavebox Settings", None);
      (Some "Change Dictionary", Some [Some "en_US"; Some "de_DE"]);
      (Some "Inspect", None) ].
Proof. vm_compute. reflexivity. Qed.

(** ** Which sections are shown *)

(** X20: which sections of a menu have entries: the spelling section for a
    misspelled word in an editable field, the URL section for a link, the
    lookup section for selected text, the undo and redo section when one of
    the two is possible, the editing section for an image or when one of
    cut, copy, paste, select all is possible; the navigation, page and
    Wavebox sections always. *)
Theorem sections_shown (w : World) (contents : WebContents) (params : Params) :
  shown (renderSpellingSection w contents params)
  = isEditable params && truthy (misspelledWord params)
  ∧ shown (renderURLSection w contents params) = truthy (linkURL params)
  ∧ shown (renderLookupAndSearchSection contents params)
    = truthy (selectionText params)
  ∧ shown (renderRewindSection contents params)
    = canUndo (editFlags params) || canRedo (editFlags params)
  ∧ shown (renderEditingSection contents params)
    = String.eqb (mediaType params) "image"
      || canCut (editFlags params) || canCopy (editFlags params)
      || canPaste (editFlags params) || canSelectAll (editFlags params)
  ∧ shown (renderPageNavigationSection w contents params) = true
  ∧ shown (renderPageExternalSection contents params) = true
  ∧ shown (renderWaveboxSection w contents params) = true.
Proof.
  repeat split.
  - unfold renderSpellingSection.
    destruct (isEditable params && truthy (misspelledWord params)); [|done].
    cbv zeta.
    destruct (primary _) as [p|], (secondary _) as [s|]; try done;
      unfold renderSpellingSuggestionMenuItems;
      match goal with |- context [negb (Nat.eqb (length ?l) 0)] => by destruct l end.
  - unfold renderURLSection. by destruct (truthy (linkURL params)).
  - unfold renderLookupAndSearchSection.
    destruct (truthy (selectionText params)); [|done].
    by destruct (isEditable params && truthy (misspelledWord params)).
  - unfold renderRewindSection. by destruct (_ || _).
  - unfold renderEditingSection.
    destruct (String.eqb (mediaType params) "image"); [done|].
    by destruct (canCut _), (canCopy _), (canPaste _), (canSelectAll _).
Qed.

(** ** Teardown of several menus *)

Lemma launchMenu_effects w evt params :
  effects (launchMenu w evt params)
  = match poppedUp (launchMenu w evt params) with
    | Some menu =>
        [ MenuPopup menu
            (default (mkBrowserWindow 0 (sender evt) None)
               (rootWebContents w (sender evt) ≫= fromWebContents w));
          SetTimeout (MenuTool_fullDestroyMenu menu) 100 ]
    | None => []
    end.
Proof.
  unfold poppedUp, launchMenu.
  destruct (rootWebContents w (sender evt)) as [rootContents|]; [|done].
  simpl. by destruct (fromWebContents w rootContents).
Qed.

Lemma afterLaunches_loop clicks : ∀ l,
  timers (afterLaunches clicks l)
  = timers l
    ++ map (λ menu, (MenuTool_fullDestroyMenu menu, 100))
         (omap (λ x : World * Event * Params, poppedUp (launchMenu x.1.1 x.1.2 x.2))
            clicks)
  ∧ destroyedMenus (afterLaunches clicks l) = destroyedMenus l.
Proof.
  unfold afterLaunches.
  induction clicks as [|[[w evt] params] clicks IH]; intros l; simpl.
  { by rewrite app_nil_r. }
  destruct (IH (fold_left perform (effects (launchMenu w evt params)) l))
    as [-> ->].
  rewrite launchMenu_effects.
  destruct (poppedUp (launchMenu w evt params)) as [menu|]; simpl; [|done].
  by rewrite <- app_assoc.
Qed.

Lemma fire_all_timers menus : ∀ destroyed,
  fold_left loop_step (replicate (length menus) timer_fired)
    {| timers := map (λ menu, (MenuTool_fullDestroyMenu menu, 100)) menus;
       destroyedMenus := destroyed |}
  = {| timers := []; destroyedMenus := destroyed ++ menus |}.
Proof.
  induction menus as [|menu menus IH]; intros destroyed; simpl.
  { by rewrite app_nil_r. }
  rewrite IH. by rewrite <- app_assoc.
Qed.

(** X21: no menu is left behind: after any number of context-menu events
    one timer of 100 ms is pending for each menu that was popped up, in the
    order of the events, none for an event that was aborted, and no menu is
    destroyed yet; once these timers have fired, every menu that was popped
    up has been destroyed exactly once, in that order, and no timer is
    pending. *)
Theorem every_menu_is_torn_down (clicks : list (World * Event * Params)) :
  let menus :=
    omap (λ x : World * Event * Params, poppedUp (launchMenu x.1.1 x.1.2 x.2))
      clicks in
  let displayed := afterLaunches clicks idle in
  timers displayed = map (λ menu, (MenuTool_fullDestroyMenu menu, 100)) menus
  ∧ destroyedMenus displayed = []
  ∧ fold_left loop_step (replicate (length (timers displayed)) timer_fired) displayed
    = {| timers := []; destroyedMenus := menus |}.
Proof.
  intros menus displayed.
  destruct (afterLaunches_loop clicks idle) as [Ht Hd].
  fold displayed in Ht, Hd. simpl in Ht, Hd. fold menus in Ht.
  split; [exact Ht|]. split; [exact Hd|].
  destruct displayed as [ts ds]. simpl in *. subst ts ds.
  rewrite length_map. apply fire_all_timers.
Qed.
